(** * data_formatter_for_RAG: extraction, model fallback and export

    A shallow embedding of [backend/extractor.py] and [backend/main.py].
    Python [str] values are modelled as [string], one [ascii] per
    character, which holds the code points up to U+00FF; a header value,
    where characters beyond that matter, is a list of code points.
    Python exceptions are values of an error type, and the
    remote completion endpoint and the document parsers as parameters of
    the code that calls them.  Only subclasses of [Exception] are
    modelled: these are what the [except] clauses of the source catch. *)

From Stdlib Require Import String Ascii List ZArith NArith Lia Bool Arith.
From Stdlib Require Import DecimalString.
Import ListNotations.
Local Open Scope string_scope.
Local Open Scope Z_scope.

(** ** Python built-ins used by the source *)

Module Py.

(** [sub in s] for strings. *)
Fixpoint contains (sub s : string) : bool :=
  String.prefix sub s
  || match s with
     | EmptyString => false
     | String _ s' => contains sub s'
     end.

(** The lowercase of a character up to U+00FF: the capitals are A-Z and
    U+00C0-U+00DE without the multiplication sign U+00D7, each 32 below
    its lowercase. *)
Definition lower_ascii (c : ascii) : ascii :=
  let n := nat_of_ascii c in
  if ((65 <=? n) && (n <=? 90)
      || (192 <=? n) && (n <=? 222) && negb (n =? 215))%nat
  then ascii_of_nat (n + 32) else c.

(** [s.lower()] *)
Fixpoint lower (s : string) : string :=
  match s with
  | EmptyString => EmptyString
  | String c s' => String (lower_ascii c) (lower s')
  end.

(** [s[:n]] for [n >= 0]. *)
Fixpoint take (n : nat) (s : string) : string :=
  match n, s with
  | O, _ => EmptyString
  | _, EmptyString => EmptyString
  | S n', String c s' => String c (take n' s')
  end.

(** [s[n:]] for [n >= 0]. *)
Fixpoint drop (n : nat) (s : string) : string :=
  match n, s with
  | O, _ => s
  | _, EmptyString => EmptyString
  | S n', String _ s' => drop n' s'
  end.

(** [s.rfind(c)] for a one-character [c]: the highest index, or -1. *)
Fixpoint rfind (c : ascii) (s : string) : Z :=
  match s with
  | EmptyString => -1
  | String a s' =>
      let r := rfind c s' in
      if 0 <=? r then r + 1
      else if Ascii.eqb a c then 0 else -1
  end.

Definition newline : ascii := ascii_of_nat 10.

(** [s.split('\n')]: never empty, a trailing newline gives a last [""]. *)
Fixpoint split_lines (s : string) : list string :=
  match s with
  | EmptyString => [EmptyString]
  | String c s' =>
      if Ascii.eqb c newline then EmptyString :: split_lines s'
      else match split_lines s' with
           | [] => [String c EmptyString]
           | l :: ls => String c l :: ls
           end
  end.

(** [str(n)] for a non-negative [int]. *)
Definition str_of_nat (n : nat) : string :=
  NilZero.string_of_uint (Nat.to_uint n).

(** A [str] given by its code points, of any size. *)
Definition ustr : Type := list N.

(** A [string] as code points. *)
Fixpoint widen (s : string) : ustr :=
  match s with
  | EmptyString => []
  | String c s' => N_of_ascii c :: widen s'
  end.

(** [u.encode("latin-1")]: the bytes, or the index of the first
    character above U+00FF, at which [UnicodeEncodeError] is raised. *)
Fixpoint encode_latin1 (u : ustr) : string + nat :=
  match u with
  | [] => inl EmptyString
  | c :: u' =>
      if (c <=? 255)%N then
        match encode_latin1 u' with
        | inl s => inl (String (ascii_of_N c) s)
        | inr i => inr (S i)
        end
      else inr O
  end.

End Py.

(** ** Exceptions and fallible calls *)

(** The three classes the handlers of [call_claude_api] tell apart. *)
Inductive exn_class : Type :=
  | NotFoundError
  | BadRequestError
  | OtherError.

Record exn : Type := MkExn { exn_cls : exn_class; exn_msg : string }.

(** [str(e)] *)
Definition str_exn (e : exn) : string := exn_msg e.

(** [str(last_error)], where [last_error] starts as [None]. *)
Definition str_last_error (last_error : option exn) : string :=
  match last_error with
  | None => "None"
  | Some e => str_exn e
  end.

Inductive result (A : Type) : Type :=
  | Ok (a : A)
  | Raise (e : exn).
Arguments Ok {A} a.
Arguments Raise {A} e.

Definition bind {A B : Type} (r : result A) (k : A -> result B) : result B :=
  match r with
  | Ok a => k a
  | Raise e => Raise e
  end.

Notation "x <- r ;; k" := (bind r (fun x => k))
  (at level 61, r at next level, right associativity).

(** ** AI invoker: [call_claude_api] *)

Module Invoker.

(** What [client.messages.create] is sent; the temperature is always 0. *)
Record request : Type := MkRequest {
  req_model : string;
  req_max_tokens : Z;
  req_prompt : string
}.

(** A response is the list of the texts of its content blocks. *)
Definition response : Type := list string.

(** The remote endpoint: its answer may depend on the requests already
    made by this invocation, given oldest first. *)
Definition endpoint : Type := list request -> request -> result response.

Definition index_error : exn :=
  MkExn OtherError "list index out of range".

(** [response.content[0].text] *)
Definition first_text (r : response) : result string :=
  match r with
  | [] => Raise index_error
  | t :: _ => Ok t
  end.

Definition models_to_try : list string :=
  [ "claude-3-5-sonnet-20241022";
    "claude-3-5-sonnet-20240620";
    "claude-3-opus-20240229";
    "claude-3-sonnet-20240229";
    "claude-3-haiku-20240307" ].

(** [8192 if "3-5" in model_name else 4096] *)
Definition max_tokens_limit (model_name : string) : Z :=
  if Py.contains "3-5" model_name then 8192 else 4096.

Section Loop.

Variable create : endpoint.
Variable prompt : string.

(** One [try] body: the request, then [response.content[0].text].
    The request is appended to the log of requests made. *)
Definition attempt (log : list request) (model_name : string) (max_tokens : Z)
  : result string * list request :=
  let rq := MkRequest model_name max_tokens prompt in
  (r <- create log rq ;; first_text r, (log ++ [rq])%list).

(** The request the loop makes first for a candidate. *)
Definition first_request (model_name : string) : request :=
  MkRequest model_name (max_tokens_limit model_name) prompt.

(** The [for model_name in models_to_try] loop with its final [return].
    The result is the returned string and the log of requests. *)
Fixpoint try_models (models : list string) (last_error : option exn)
    (log : list request) : string * list request :=
  match models with
  | [] =>
      ("Error: No working Claude model found. Last error: "
         ++ str_last_error last_error, log)
  | model_name :: rest =>
      match attempt log model_name (max_tokens_limit model_name) with
      | (Ok text, log1) => (text, log1)
      | (Raise e, log1) =>
          match exn_cls e with
          | NotFoundError => try_models rest (Some e) log1
          | BadRequestError =>
              if Py.contains "max_tokens" (str_exn e)
                 && (4096 <? max_tokens_limit model_name)
              then
                match attempt log1 model_name 4096 with
                | (Ok text, log2) => (text, log2)
                | (Raise retry_e, log2) => try_models rest (Some retry_e) log2
                end
              else try_models rest (Some e) log1
          | OtherError =>
              ("Error with model " ++ model_name ++ ": " ++ str_exn e, log1)
          end
      end
  end.

(** What the final [return] of the loop builds. *)
Definition exhausted_text (last_error : option exn) : string :=
  "Error: No working Claude model found. Last error: "
  ++ str_last_error last_error.

(** Reading of a finished run: the error [le] named in the result is
    the answer to the last request of [log], made for the last
    candidate; with no candidate nothing changes. *)
Definition names_last_failure (models : list string) (le0 : option exn)
    (log0 : list request) (le : option exn) (log : list request) : Prop :=
  match models with
  | [] => le = le0 /\ log = log0
  | _ :: _ =>
      exists e before rq,
        le = Some e /\ log = (before ++ [rq])%list
        /\ create before rq = Raise e
        /\ req_model rq = last models ""
  end.

(** The attempts for the candidate [m], made from [log] on, fail and
    leave the loop running: the first request raises a not-found error;
    or a bad-request error that is not retried; or a bad-request error
    that is retried at 4096, the retry failing in any way.  The error
    is the one recorded, the log the one after the attempts. *)
Inductive fails_softly (log : list request) (m : string)
  : exn -> list request -> Prop :=
  | not_found_fails e :
      create log (first_request m) = Raise e ->
      exn_cls e = NotFoundError ->
      fails_softly log m e (log ++ [first_request m])%list
  | bad_request_fails e :
      create log (first_request m) = Raise e ->
      exn_cls e = BadRequestError ->
      Py.contains "max_tokens" (str_exn e)
      && (4096 <? max_tokens_limit m) = false ->
      fails_softly log m e (log ++ [first_request m])%list
  | retry_fails e retry_e :
      create log (first_request m) = Raise e ->
      exn_cls e = BadRequestError ->
      Py.contains "max_tokens" (str_exn e)
      && (4096 <? max_tokens_limit m) = true ->
      (r <- create (log ++ [first_request m])%list (MkRequest m 4096 prompt) ;;
       first_text r) = Raise retry_e ->
      fails_softly log m retry_e
        (log ++ [first_request m; MkRequest m 4096 prompt])%list.

(** Every candidate of the sequence is attempted, in order, and none
    returns content or ends the run. *)
Inductive exhausts
  : list string -> option exn -> list request ->
    option exn -> list request -> Prop :=
  | exhausts_nil last_error log : exhausts [] last_error log last_error log
  | exhausts_cons m rest last_error log e log1 last_error' log' :
      fails_softly log m e log1 ->
      exhausts rest (Some e) log1 last_error' log' ->
      exhausts (m :: rest) last_error log last_error' log'.

End Loop.

(** The process environment of one invocation. *)
Record env : Type := MkEnv {
  api_key : option string;          (* os.getenv("ANTHROPIC_API_KEY") *)
  anthropic_installed : bool;       (* does [import anthropic] succeed *)
  make_client : result unit;        (* anthropic.Anthropic(api_key=...) *)
  create : endpoint                 (* client.messages.create *)
}.

(** [not api_key] *)
Definition no_key (k : option string) : bool :=
  match k with
  | None => true
  | Some EmptyString => true
  | Some _ => false
  end.

(** [call_claude_api(prompt)]; [None] is Python's [None]. *)
Definition call_claude_api (E : env) (prompt : string) : option string :=
  if no_key (api_key E) then None
  else if negb (anthropic_installed E) then
    Some "Error: anthropic library not installed."
  else
    match make_client E with
    | Raise e => Some ("Error calling Claude API: " ++ str_exn e)
    | Ok _ => Some (fst (try_models (create E) prompt models_to_try None []))
    end.

End Invoker.

(** ** Extractor: [extractor.py] *)

Module Extractor.

(** The [while filenameIndex < dotIndex] loop of [os.path.splitext]:
    [true] when a character other than a dot is met before [dotIndex],
    which is when the loop returns the split. *)
Fixpoint name_before_dot (p : string) (filenameIndex steps : nat) : bool :=
  match steps with
  | O => false
  | S k =>
      match String.get filenameIndex p with
      | Some c =>
          if Ascii.eqb c "." then name_before_dot p (S filenameIndex) k
          else true
      | None => true
      end
  end.

(** [os.path.splitext(p)] of [posixpath]: separator "/", extension
    separator ".", leading dots of the last component skipped. *)
Definition splitext (p : string) : string * string :=
  let sepIndex := Py.rfind "/" p in
  let dotIndex := Py.rfind "." p in
  if (sepIndex <? dotIndex)
     && name_before_dot p (Z.to_nat (sepIndex + 1))
          (Z.to_nat (dotIndex - (sepIndex + 1)))
  then (Py.take (Z.to_nat dotIndex) p, Py.drop (Z.to_nat dotIndex) p)
  else (p, EmptyString).

(** The three parsing libraries.  Opening a document may raise, and so
    may reading the text of each page, paragraph or shape; a shape
    without a [text] attribute is [None]. *)
Record parsers : Type := MkParsers {
  PdfReader : string -> result (list (result string));
  Document : string -> result (list (result string));
  Presentation : string -> result (list (list (option (result string))))
}.

(** [for page in reader.pages: text += page.extract_text() + "\n"] *)
Fixpoint pdf_pages (pages : list (result string)) (text : string)
  : result string :=
  match pages with
  | [] => Ok text
  | page :: rest =>
      t <- page ;; pdf_pages rest (text ++ (t ++ String Py.newline ""))
  end.

(** [[para.text for para in doc.paragraphs]] *)
Fixpoint docx_paragraphs (paras : list (result string))
  : result (list string) :=
  match paras with
  | [] => Ok []
  | para :: rest =>
      t <- para ;; ts <- docx_paragraphs rest ;; Ok (t :: ts)
  end.

(** [for shape in slide.shapes: if hasattr(shape, "text"): ...] *)
Fixpoint pptx_shapes (shapes : list (option (result string))) (text : string)
  : result string :=
  match shapes with
  | [] => Ok text
  | None :: rest => pptx_shapes rest text
  | Some shape_text :: rest =>
      t <- shape_text ;; pptx_shapes rest (text ++ (t ++ String Py.newline ""))
  end.

(** [for slide in prs.slides: ...] *)
Fixpoint pptx_slides (slides : list (list (option (result string))))
    (text : string) : result string :=
  match slides with
  | [] => Ok text
  | slide :: rest =>
      text' <- pptx_shapes slide text ;; pptx_slides rest text'
  end.

Section Extract.

Variable P : parsers.

(** The body of each [try] block. *)
Definition read_pdf (file_path : string) : result string :=
  pages <- PdfReader P file_path ;; pdf_pages pages "".

Definition read_docx (file_path : string) : result string :=
  paras <- Document P file_path ;;
  ts <- docx_paragraphs paras ;;
  Ok (String.concat (String Py.newline "") ts).

Definition read_pptx (file_path : string) : result string :=
  slides <- Presentation P file_path ;; pptx_slides slides "".

(** [try: ... except Exception as e: return f"Error extracting FMT: ..."] *)
Definition or_error (fmt : string) (r : result string) : string :=
  match r with
  | Ok text => text
  | Raise e => "Error extracting " ++ fmt ++ ": " ++ str_exn e
  end.

Definition extract_text_from_pdf (file_path : string) : string :=
  or_error "PDF" (read_pdf file_path).

Definition extract_text_from_docx (file_path : string) : string :=
  or_error "DOCX" (read_docx file_path).

Definition extract_text_from_pptx (file_path : string) : string :=
  or_error "PPTX" (read_pptx file_path).

(** [os.path.splitext(file_path)[1].lower()] *)
Definition extension (file_path : string) : string :=
  Py.lower (snd (splitext file_path)).

Definition extract_text (file_path : string) : string :=
  let ext := extension file_path in
  if String.eqb ext ".pdf" then extract_text_from_pdf file_path
  else if String.eqb ext ".docx" then extract_text_from_docx file_path
  else if String.eqb ext ".pptx" then extract_text_from_pptx file_path
  else "Unsupported file format: " ++ ext.

End Extract.

(** *** Reading what the parsers answer *)

(** The exception of the first part that cannot be read, if any. *)
Fixpoint first_failure (parts : list (result string)) : option exn :=
  match parts with
  | [] => None
  | Raise e :: _ => Some e
  | Ok _ :: rest => first_failure rest
  end.

(** The texts of the parts that can be read. *)
Fixpoint texts_of (parts : list (result string)) : list string :=
  match parts with
  | [] => []
  | Ok t :: rest => t :: texts_of rest
  | Raise _ :: rest => texts_of rest
  end.

(** The shapes of a slide that have a [text] attribute. *)
Definition shapes_with_text (slide : list (option (result string)))
  : list (result string) :=
  flat_map (fun shape => match shape with Some r => [r] | None => [] end)
           slide.

(** Each text followed by a newline. *)
Definition each_line (texts : list string) : string :=
  String.concat "" (map (fun t => t ++ String Py.newline "") texts).

(** [s] is the report of [e] for the format [fmt]. *)
Definition reports (fmt : string) (e : exn) (s : string) : Prop :=
  s = "Error extracting " ++ fmt ++ ": " ++ str_exn e
  /\ String.prefix "Error extracting" s = true.

(** The texts of the shapes of a slide that have one. *)
Definition shape_texts (slide : list (option string)) : list string :=
  flat_map (fun shape => match shape with Some t => [t] | None => [] end)
           slide.

End Extractor.

(** ** Exporter: [download_result] *)

Module Exporter.

Record DownloadRequest : Type := MkDownloadRequest {
  content : string;
  format : string;
  filename : Py.ustr
}.

(** A line drawn by [textLine], with the value of the loop's [y] when it
    was drawn. *)
Definition drawn_line : Type := (Z * string)%type.

(** A page of the canvas: the lines of its text object. *)
Definition page : Type := list drawn_line.

Inductive payload : Type :=
  | Text (s : string)
  | Pdf (pages : list page).

Record Response : Type := MkResponse {
  body : payload;
  media_type : string;
  content_disposition : string
}.

(** How the handler ends: with a response, with the [HTTPException] it
    raises itself, or with the [UnicodeEncodeError] that building a
    response raises when a header value cannot be encoded. *)
Inductive http_result : Type :=
  | Respond (r : Response)
  | HTTPException (status_code : Z) (detail : string)
  | UnicodeEncodeError (codec : string) (position : nat).

(** [f"attachment; filename={filename}.{ext}"] *)
Definition disposition (name : Py.ustr) (ext : string) : Py.ustr :=
  (Py.widen "attachment; filename=" ++ name ++ Py.widen ext)%list.

(** [Response(content=..., media_type=..., headers={"Content-Disposition":
    ...})]: the header value is encoded as latin-1 when the response is
    built. *)
Definition make_response (content : payload) (media : string)
    (header : Py.ustr) : http_result :=
  match Py.encode_latin1 header with
  | inl value => Respond (MkResponse content media value)
  | inr position => UnicodeEncodeError "latin-1" position
  end.

(** [letter]: 8.5 by 11 inches at 72 units per inch.  ReportLab holds
    these as floats; every value the loop computes from them is an
    integer of small magnitude, on which float arithmetic is exact. *)
Definition letter : Z * Z := (612, 792).
Definition height : Z := snd letter.

(** [line[:90] + ("..." if len(line) > 90 else "")] *)
Definition emit_line (line : string) : string :=
  Py.take 90 line ++ (if (90 <? String.length line)%nat then "..." else "").

(** The state of the layout loop: the cursor [y], the lines of the
    current text object, and the pages already shown. *)
Record layout : Type := MkLayout {
  y : Z;
  text_object : page;
  shown : list page
}.

(** [c.beginText(40, height - 40)] and [y = height - 40] *)
Definition begin_layout : layout := MkLayout (height - 40) [] [].

(** [if y < 40: c.drawText(text_object); c.showPage(); ...] *)
Definition page_break (st : layout) : layout :=
  if y st <? 40
  then MkLayout (height - 40) [] (shown st ++ [text_object st])%list
  else st.

(** One iteration of [for line in lines]. *)
Definition layout_line (st : layout) (line : string) : layout :=
  let st1 := page_break st in
  MkLayout (y st1 - 12)
           (text_object st1 ++ [(y st1, emit_line line)])%list
           (shown st1).

(** The loop, then [c.drawText(text_object); c.save()]: the last text
    object is never empty, so [save] shows it as the last page. *)
Definition render_pdf (content : string) : list page :=
  let st := fold_left layout_line (Py.split_lines content) begin_layout in
  (shown st ++ [text_object st])%list.

Definition download_result (request : DownloadRequest) : http_result :=
  let fmt := Py.lower (format request) in
  if String.eqb fmt "md" then
    make_response (Text (content request)) "text/markdown"
      (disposition (filename request) ".md")
  else if String.eqb fmt "txt" then
    make_response (Text (content request)) "text/plain"
      (disposition (filename request) ".txt")
  else if String.eqb fmt "pdf" then
    make_response (Pdf (render_pdf (content request))) "application/pdf"
      (disposition (filename request) ".pdf")
  else HTTPException 400 "Unsupported format".

(** *** Reading the layout *)

(** Lines a letter page holds: the cursor values 752, 740, ..., 44. *)
Definition lines_per_page : nat := 60.

(** The cursor at the line of index [k] of a page. *)
Definition line_y (k : nat) : Z := height - 40 - 12 * Z.of_nat k.

(** Every line of the page was drawn at the cursor of its index. *)
Definition well_placed (p : page) : Prop :=
  forall k cursor text, nth_error p k = Some (cursor, text) -> cursor = line_y k.

(** What the loop keeps true of its state. *)
Definition layout_inv (st : layout) : Prop :=
  y st = line_y (length (text_object st))
  /\ (length (text_object st) <= lines_per_page)%nat
  /\ well_placed (text_object st)
  /\ Forall (fun p => length p = lines_per_page /\ well_placed p) (shown st).

(** All lines drawn so far, in order. *)
Definition drawn (st : layout) : list drawn_line :=
  concat (shown st ++ [text_object st]).

End Exporter.

(** ** Upload handler: [upload_files] *)

Module Upload.

Definition TEMP_DIR : string := "temp_uploads".

(** [os.path.join(TEMP_DIR, name)]: an absolute [name] replaces the
    directory. *)
Definition temp_path (name : string) : string :=
  if String.prefix "/" name then name
  else TEMP_DIR ++ "/" ++ name.

Record file_result : Type := MkFileResult {
  r_filename : string;
  extracted_text_preview : string;
  generated_prompt : string;
  ai_response : string
}.

Definition nl : string := String Py.newline "".

(** The simulated response of lines 146-157. *)
Definition mock_response (name extracted_text : string) : string :=
  nl ++ "# Extracted Structure for " ++ name ++ " (SIMULATION)" ++ nl
  ++ nl
  ++ "(No valid ANTHROPIC_API_KEY found in backend/.env, so this is a simulated response.)" ++ nl
  ++ nl
  ++ "## Summary" ++ nl
  ++ "The document contains "
  ++ Py.str_of_nat (String.length extracted_text) ++ " characters." ++ nl
  ++ nl
  ++ "## Mock Data Points" ++ nl
  ++ "- **Category 1**: Simulation Data A" ++ nl
  ++ "- **Category 2**: Simulation Data B" ++ nl.

(** [not ai_response] *)
Definition falsy (r : option string) : bool :=
  match r with
  | None => true
  | Some EmptyString => true
  | Some _ => false
  end.

Section Handler.

Variable P : Extractor.parsers.
(** [prompts.get_prompt_for_data], a module outside this embedding. *)
Variable get_prompt_for_data : string -> string.

(** The body of [for file in files] for an upload named [name]. *)
Definition process_file (E : Invoker.env) (name : string) : file_result :=
  let file_path := temp_path name in
  let extracted_text := Extractor.extract_text P file_path in
  let prompt := get_prompt_for_data extracted_text in
  let ai := Invoker.call_claude_api E prompt in
  let ai_response :=
    if falsy ai then mock_response name extracted_text
    else match ai with Some s => s | None => EmptyString end in
  MkFileResult name (Py.take 500 extracted_text ++ "...") prompt ai_response.

Definition upload_files (E : Invoker.env) (files : list string)
  : list file_result :=
  map (process_file E) files.

End Handler.

End Upload.

(** ** Concrete environments

    Small endpoints, parsers and environments on which the properties
    below are exercised. *)

Module Scenario.

Import Invoker.

Definition not_found (m : string) : exn :=
  MkExn NotFoundError ("model: " ++ m).

(** Only the last configured model exists. *)
Definition only_haiku : endpoint :=
  fun _ rq =>
    if String.eqb (req_model rq) "claude-3-haiku-20240307"
    then Ok ["# Result"]
    else Raise (not_found (req_model rq)).

(** No model exists. *)
Definition nothing_found : endpoint :=
  fun _ rq => Raise (not_found (req_model rq)).

Definition ceiling_rejected : exn :=
  MkExn BadRequestError "max_tokens: 8192 > 4096, the maximum allowed".

(** Every model rejects a ceiling above 4096 and answers below it. *)
Definition low_ceiling_only : endpoint :=
  fun _ rq =>
    if 4096 <? req_max_tokens rq then Raise ceiling_rejected
    else Ok ["# Result"].

Definition connection_error : exn :=
  MkExn OtherError "Connection error.".

(** The network is down. *)
Definition unreachable : endpoint := fun _ _ => Raise connection_error.

(** Every model answers with one empty text block. *)
Definition empty_answer : endpoint := fun _ _ => Ok [EmptyString].

Definition prompt_too_long : exn :=
  MkExn BadRequestError "prompt is too long: 250000 tokens > 200000 maximum".

(** Every model refuses the prompt for its size. *)
Definition oversized : endpoint := fun _ _ => Raise prompt_too_long.

(** Every model answers with no content block. *)
Definition no_blocks : endpoint := fun _ _ => Ok [].

(** The newer models reject the high ceiling, and the retry meets a
    network failure; the older models do not exist. *)
Definition retry_unreachable : endpoint :=
  fun _ rq =>
    if 4096 <? req_max_tokens rq then Raise ceiling_rejected
    else if Py.contains "3-5" (req_model rq) then Raise connection_error
    else Raise (not_found (req_model rq)).

(** The older models do not exist, and the last one is unreachable. *)
Definition last_unreachable : endpoint :=
  fun _ rq =>
    if String.eqb (req_model rq) "claude-3-haiku-20240307"
    then Raise connection_error
    else Raise (not_found (req_model rq)).

Definition with_key (create : endpoint) : env :=
  MkEnv (Some "sk-test") true (Ok tt) create.

Definition without_key : env :=
  MkEnv None true (Ok tt) nothing_found.

Definition corrupt : exn := MkExn OtherError "EOF marker not found".

(** One readable document of each kind, and one corrupt PDF. *)
Definition documents : Extractor.parsers :=
  Extractor.MkParsers
    (fun path =>
       if String.eqb path "temp_uploads/abc.pdf"
       then Ok [Ok "A"; Ok "B"; Ok "C"]
       else Raise corrupt)
    (fun _ => Ok [Ok "Title"; Ok "Body"])
    (fun _ => Ok [[Some (Ok "Slide 1"); None]; [Some (Ok "Slide 2")]]).

(** A PDF whose second page cannot be read. *)
Definition half_read : Extractor.parsers :=
  Extractor.MkParsers
    (fun _ => Ok [Ok "A"; Raise corrupt; Ok "C"])
    (fun _ => Raise corrupt)
    (fun _ => Raise corrupt).

(** A prompt template. *)
Definition get_prompt (text : string) : string :=
  "Restructure the following data:" ++ text.

End Scenario.

(** * Properties *)

(** ** The fallback loop *)

Section InvokerFacts.

Import Invoker.

Variable create : endpoint.
Variable prompt : string.

Local Abbreviation first_req := (first_request prompt).
Local Abbreviation run := (try_models create prompt).

Lemma attempt_log log m k :
  snd (attempt create prompt log m k) = (log ++ [MkRequest m k prompt])%list.
Proof. reflexivity. Qed.

(** A not-found answer to the first request sends the loop to the next
    candidate, with one request logged. *)
Lemma try_models_not_found m rest last_error log e :
  create log (first_req m) = Raise e ->
  exn_cls e = NotFoundError ->
  run (m :: rest) last_error log
  = run rest (Some e) (log ++ [first_req m])%list.
Proof.
  intros Hc Hcls. simpl. unfold attempt. fold (first_req m).
  rewrite Hc. simpl. rewrite Hcls. reflexivity.
Qed.

(** A first request answered with content ends the loop. *)
Lemma try_models_content m rest last_error log text more :
  create log (first_req m) = Ok (text :: more) ->
  run (m :: rest) last_error log = (text, (log ++ [first_req m])%list).
Proof.
  intros Hc. simpl. unfold attempt. fold (first_req m).
  rewrite Hc. reflexivity.
Qed.

Lemma not_found_prefix pre : forall last text more last_error log,
  (forall i, (i < length pre)%nat ->
     exists e,
       create (log ++ map first_req (firstn i pre))%list
              (first_req (nth i pre "")) = Raise e
       /\ exn_cls e = NotFoundError) ->
  create (log ++ map first_req pre)%list (first_req last)
    = Ok (text :: more) ->
  run (pre ++ [last])%list last_error log
  = (text, (log ++ map first_req (pre ++ [last]))%list).
Proof.
  induction pre as [|m pre IH]; intros last text more last_error log Hnf Hok.
  - cbn [app map] in *. rewrite app_nil_r in Hok.
    now rewrite (try_models_content _ _ _ _ _ _ Hok).
  - destruct (Hnf 0%nat) as (e & He & Hcls); [simpl; lia|].
    simpl in He. rewrite app_nil_r in He.
    change ((m :: pre) ++ [last])%list with (m :: (pre ++ [last]))%list.
    rewrite (try_models_not_found _ _ _ _ _ He Hcls).
    rewrite (IH last text more).
    + cbn [app map]. now rewrite <- app_assoc.
    + intros i Hi. destruct (Hnf (S i)) as (e' & He' & Hcls');
        [simpl; lia|].
      exists e'. split; [|exact Hcls'].
      rewrite <- app_assoc. exact He'.
    + rewrite <- app_assoc. exact Hok.
Qed.

End InvokerFacts.

(** C1.  When the first request for each of the first N-1 candidates is
    answered with a not-found error and the first request for the last
    candidate is answered with content, the loop returns the text of that
    content, and the requests made are exactly the first requests of the
    N candidates, one each, in the order of the sequence. *)
Theorem fallback_reaches_last_candidate
    (create : Invoker.endpoint) (prompt : string)
    (pre : list string) (last text : string) (more : list string) :
  (forall i, (i < length pre)%nat ->
     exists e,
       create (map (Invoker.first_request prompt) (firstn i pre))
              (Invoker.first_request prompt (nth i pre "")) = Raise e
       /\ exn_cls e = NotFoundError) ->
  create (map (Invoker.first_request prompt) pre)
         (Invoker.first_request prompt last) = Ok (text :: more) ->
  Invoker.try_models create prompt (pre ++ [last])%list None []
  = (text, map (Invoker.first_request prompt) (pre ++ [last])%list).
Proof.
  intros Hnf Hok.
  exact (not_found_prefix create prompt pre last text more None [] Hnf Hok).
Qed.

Lemma fallback_reaches_last_candidate_witness :
  Invoker.try_models Scenario.only_haiku "p" Invoker.models_to_try None []
  = ("# Result", map (Invoker.first_request "p") Invoker.models_to_try).
Proof.
  apply (fallback_reaches_last_candidate Scenario.only_haiku "p"
           (firstn 4 Invoker.models_to_try) "claude-3-haiku-20240307"
           "# Result" []).
  - intros i Hi.
    destruct i as [|[|[|[|i]]]];
      try (eexists; split; reflexivity).
    simpl in Hi. lia.
  - reflexivity.
Defined.

(** C2.  When the first request for a candidate is answered with a
    bad-request error whose message mentions [max_tokens], and the
    ceiling sent was above 4096, the loop makes exactly one more request
    for the same candidate, with ceiling 4096.  Content from it is the
    result; any failure of it becomes the last error and the loop goes
    on with the next candidate. *)
Theorem token_ceiling_retry
    (create : Invoker.endpoint) (prompt m : string) (rest : list string)
    (last_error : option exn) (log : list Invoker.request) (e : exn) :
  create log (Invoker.first_request prompt m) = Raise e ->
  exn_cls e = BadRequestError ->
  Py.contains "max_tokens" (str_exn e) = true ->
  4096 < Invoker.max_tokens_limit m ->
  let rq1 := Invoker.first_request prompt m in
  let rq2 := Invoker.MkRequest m 4096 prompt in
  Invoker.try_models create prompt (m :: rest) last_error log
  = match r <- create (log ++ [rq1])%list rq2 ;; Invoker.first_text r with
    | Ok text => (text, (log ++ [rq1; rq2])%list)
    | Raise retry_e =>
        Invoker.try_models create prompt rest (Some retry_e)
          (log ++ [rq1; rq2])%list
    end.
Proof.
  intros Hc Hcls Hmsg Hlim rq1 rq2. simpl.
  unfold Invoker.attempt. fold (Invoker.first_request prompt m).
  rewrite Hc. simpl. rewrite Hcls, Hmsg.
  apply Z.ltb_lt in Hlim. rewrite Hlim. simpl.
  fold rq1 rq2.
  replace ((log ++ [rq1]) ++ [rq2])%list with (log ++ [rq1; rq2])%list
    by now rewrite <- app_assoc.
  destruct (create (log ++ [rq1])%list rq2) as [r|e']; simpl; [|reflexivity].
  destruct r; reflexivity.
Qed.

Lemma token_ceiling_retry_witness :
  Invoker.try_models Scenario.low_ceiling_only "p"
    ["claude-3-5-sonnet-20241022"; "claude-3-opus-20240229"] None []
  = ("# Result",
     [Invoker.MkRequest "claude-3-5-sonnet-20241022" 8192 "p";
      Invoker.MkRequest "claude-3-5-sonnet-20241022" 4096 "p"]).
Proof.
  apply (token_ceiling_retry Scenario.low_ceiling_only "p"
           "claude-3-5-sonnet-20241022" ["claude-3-opus-20240229"]
           None [] Scenario.ceiling_rejected).
  - reflexivity.
  - reflexivity.
  - reflexivity.
  - reflexivity.
Defined.

(** ** Exhaustion *)

Section Exhaustion.

Import Invoker.

Variable create : endpoint.
Variable prompt : string.

(** Every request is answered with a not-found or a bad-request error. *)
Hypothesis soft : forall log rq,
  exists e, create log rq = Raise e /\ exn_cls e <> OtherError.

Local Abbreviation run := (try_models create prompt).
Local Abbreviation names_last_failure := (Invoker.names_last_failure create).

Lemma names_last_failure_cons m rest e before rq le log :
  create before rq = Raise e ->
  req_model rq = m ->
  names_last_failure rest (Some e) (before ++ [rq])%list le log ->
  names_last_failure (m :: rest) None [] le log
  /\ forall le0 log0, names_last_failure (m :: rest) le0 log0 le log.
Proof.
  intros Hc Hm H.
  assert (G : forall le0 log0, names_last_failure (m :: rest) le0 log0 le log).
  { intros le0 log0. destruct rest as [|m' rest'].
    - destruct H as [-> ->]. exists e, before, rq. auto.
    - destruct H as (e' & b' & rq' & -> & -> & Hc' & Hm').
      exists e', b', rq'. auto. }
  split; [apply G | exact G].
Qed.

Lemma soft_failures_exhaust models : forall last_error log,
  exists le log',
    run models last_error log = (exhausted_text le, log')
    /\ names_last_failure models last_error log le log'.
Proof.
  induction models as [|m rest IH]; intros last_error log.
  - exists last_error, log. split; [reflexivity | split; reflexivity].
  - simpl. unfold attempt.
    set (rq1 := MkRequest m (max_tokens_limit m) prompt).
    destruct (soft log rq1) as (e & He & Hcls). rewrite He. simpl.
    assert (Next : exists le log',
               run rest (Some e) (log ++ [rq1])%list = (exhausted_text le, log')
               /\ names_last_failure (m :: rest) last_error log le log').
    { destruct (IH (Some e) (log ++ [rq1])%list) as (le & log' & Hr & Hn).
      exists le, log'. split; [exact Hr|].
      now apply (names_last_failure_cons m rest e log rq1). }
    destruct (exn_cls e) eqn:Ecls; [exact Next | | congruence].
    destruct (Py.contains "max_tokens" (str_exn e)
              && (4096 <? max_tokens_limit m)); [|exact Next].
    set (rq2 := MkRequest m 4096 prompt).
    destruct (soft (log ++ [rq1])%list rq2) as (e2 & He2 & _).
    rewrite He2. simpl.
    destruct (IH (Some e2) ((log ++ [rq1]) ++ [rq2])%list)
      as (le & log' & Hr & Hn).
    exists le, log'. split; [exact Hr|].
    now apply (names_last_failure_cons m rest e2 (log ++ [rq1])%list rq2).
Qed.

End Exhaustion.

(** ** Exhaustion, whatever the failures *)

Section Exhausting.

Import Invoker.

Variable create : endpoint.
Variable prompt : string.

Local Abbreviation run := (try_models create prompt).
Local Abbreviation answer log rq := (r <- create log rq ;; first_text r).

(** Soft failure of a candidate is one iteration that continues. *)
Lemma fails_softly_step m rest last_error log e log1 :
  fails_softly create prompt log m e log1 ->
  run (m :: rest) last_error log = run rest (Some e) log1.
Proof.
  intros H. cbn [try_models]. unfold attempt.
  fold (first_request prompt m).
  destruct H as [e Hc Hcls | e Hc Hcls Hno | e retry_e Hc Hcls Hre Hans];
    rewrite Hc; cbn [bind]; rewrite Hcls.
  - reflexivity.
  - now rewrite Hno.
  - rewrite Hre, Hans.
    replace ((log ++ [first_request prompt m]) ++ [MkRequest m 4096 prompt])%list
      with (log ++ [first_request prompt m; MkRequest m 4096 prompt])%list
      by now rewrite <- app_assoc.
    reflexivity.
Qed.

Lemma fails_softly_last m log e log1 :
  fails_softly create prompt log m e log1 ->
  exists before rq,
    log1 = (before ++ [rq])%list
    /\ answer before rq = Raise e /\ req_model rq = m.
Proof.
  intros [e' Hc _ | e' Hc _ _ | e' retry_e _ _ _ Hans].
  - exists log, (first_request prompt m). now rewrite Hc.
  - exists log, (first_request prompt m). now rewrite Hc.
  - exists (log ++ [first_request prompt m])%list, (MkRequest m 4096 prompt).
    split; [now rewrite <- app_assoc | auto].
Qed.

(** An exhausting run ends at the final [return]. *)
Lemma exhausts_run models last_error log last_error' log' :
  exhausts create prompt models last_error log last_error' log' ->
  run models last_error log = (exhausted_text last_error', log').
Proof.
  induction 1 as [le log | m rest le log e log1 le' log' Hm _ IH];
    [reflexivity|].
  now rewrite (fails_softly_step m rest le log e log1 Hm).
Qed.

(** It names the failure of the last request, made for the last
    candidate. *)
Lemma exhausts_last models last_error log last_error' log' :
  exhausts create prompt models last_error log last_error' log' ->
  models <> [] ->
  exists e before rq,
    last_error' = Some e /\ log' = (before ++ [rq])%list
    /\ answer before rq = Raise e /\ req_model rq = last models "".
Proof.
  induction 1 as [le log | m rest le log e log1 le' log' Hm Hrest IH];
    intros Hne; [now elim Hne|].
  destruct rest as [|m' rest'].
  - inversion Hrest; subst.
    destruct (fails_softly_last m log e log' Hm) as (before & rq & H).
    exists e, before, rq. cbn [last]. tauto.
  - destruct IH as (e' & before & rq & H); [discriminate|].
    exists e', before, rq. exact H.
Qed.

(** A run that does not exhaust the candidates returned content or
    ended on an error outside the two classes. *)
Lemma run_exhausts_or_ends models : forall last_error log,
  (exists last_error' log',
     exhausts create prompt models last_error log last_error' log')
  \/ (exists before rq text more,
        snd (run models last_error log) = (before ++ [rq])%list
        /\ create before rq = Ok (text :: more)
        /\ fst (run models last_error log) = text)
  \/ (exists before m e,
        snd (run models last_error log)
        = (before ++ [first_request prompt m])%list
        /\ In m models
        /\ answer before (first_request prompt m) = Raise e
        /\ exn_cls e = OtherError
        /\ fst (run models last_error log)
           = "Error with model " ++ m ++ ": " ++ str_exn e).
Proof.
  induction models as [|m rest IH]; intros last_error log.
  - left. exists last_error, log. constructor.
  - assert (Next : forall e log1,
              fails_softly create prompt log m e log1 ->
              (exists le' log',
                 exhausts create prompt (m :: rest) last_error log le' log')
              \/ (exists before rq text more,
                    snd (run rest (Some e) log1) = (before ++ [rq])%list
                    /\ create before rq = Ok (text :: more)
                    /\ fst (run rest (Some e) log1) = text)
              \/ (exists before m' e',
                    snd (run rest (Some e) log1)
                    = (before ++ [first_request prompt m'])%list
                    /\ In m' (m :: rest)
                    /\ answer before (first_request prompt m') = Raise e'
                    /\ exn_cls e' = OtherError
                    /\ fst (run rest (Some e) log1)
                       = "Error with model " ++ m' ++ ": " ++ str_exn e')).
    { intros e log1 Hm.
      destruct (IH (Some e) log1) as [(le' & log' & H) | [H | H]].
      - left. exists le', log'. econstructor; eassumption.
      - right. left. exact H.
      - right. right. destruct H as (before & m' & e' & H1 & H2 & H3).
        exists before, m', e'. split; [exact H1|].
        split; [now right | exact H3]. }
    destruct (create log (first_request prompt m)) as [[|t more]|e] eqn:Ec.
    + right. right. exists log, m, index_error.
      cbn [try_models]. unfold attempt. fold (first_request prompt m).
      rewrite Ec. cbn [bind first_text]. split; [reflexivity|].
      split; [now left | auto].
    + right. left. exists log, (first_request prompt m), t, more.
      cbn [try_models]. unfold attempt. fold (first_request prompt m).
      rewrite Ec. auto.
    + destruct (exn_cls e) eqn:Ecls.
      * assert (Hm : fails_softly create prompt log m e
                       (log ++ [first_request prompt m])%list)
          by now constructor.
        rewrite (fails_softly_step m rest last_error log _ _ Hm).
        now apply Next.
      * destruct (Py.contains "max_tokens" (str_exn e)
                  && (4096 <? max_tokens_limit m)) eqn:Ere.
        -- destruct (create (log ++ [first_request prompt m])%list
                       (MkRequest m 4096 prompt)) as [[|t more]|e2] eqn:Ec2.
           ++ assert (Hm : fails_softly create prompt log m index_error
                       (log ++ [first_request prompt m;
                                MkRequest m 4096 prompt])%list)
                by (apply (retry_fails create prompt log m e); auto;
                    now rewrite Ec2).
              rewrite (fails_softly_step m rest last_error log _ _ Hm).
              now apply Next.
           ++ right. left.
              exists (log ++ [first_request prompt m])%list,
                     (MkRequest m 4096 prompt), t, more.
              cbn [try_models]. unfold attempt.
              fold (first_request prompt m).
              rewrite Ec. cbn [bind]. rewrite Ecls, Ere, Ec2. auto.
           ++ assert (Hm : fails_softly create prompt log m e2
                       (log ++ [first_request prompt m;
                                MkRequest m 4096 prompt])%list)
                by (apply (retry_fails create prompt log m e); auto;
                    now rewrite Ec2).
              rewrite (fails_softly_step m rest last_error log _ _ Hm).
              now apply Next.
        -- assert (Hm : fails_softly create prompt log m e
                          (log ++ [first_request prompt m])%list)
             by now apply bad_request_fails.
           rewrite (fails_softly_step m rest last_error log _ _ Hm).
           now apply Next.
      * right. right. exists log, m, e.
        cbn [try_models]. unfold attempt. fold (first_request prompt m).
        rewrite Ec. cbn [bind]. rewrite Ecls. split; [reflexivity|].
        split; [now left | auto].
Qed.

End Exhausting.

(** C3, as the code has it.  With a credential, the library and a
    client, when every candidate has been attempted and none has
    returned content or ended the run (each first request raised a
    not-found or a bad-request error, and each retry at 4096 failed in
    whatever way), the invoker returns a string:
    "Error: No working Claude model found. Last error: " followed by
    the message of the last recorded error, which is the failure of the
    last request made, for the last candidate. *)
Theorem exhausted_reports_last_error
    (E : Invoker.env) (prompt : string)
    (last_error : option exn) (log : list Invoker.request) :
  Invoker.no_key (Invoker.api_key E) = false ->
  Invoker.anthropic_installed E = true ->
  Invoker.make_client E = Ok tt ->
  Invoker.exhausts (Invoker.create E) prompt Invoker.models_to_try None []
    last_error log ->
  exists e before rq,
    last_error = Some e
    /\ Invoker.call_claude_api E prompt
       = Some ("Error: No working Claude model found. Last error: "
               ++ str_exn e)
    /\ Invoker.try_models (Invoker.create E) prompt Invoker.models_to_try
         None []
       = ("Error: No working Claude model found. Last error: "
          ++ str_exn e, log)
    /\ log = (before ++ [rq])%list
    /\ (r <- Invoker.create E before rq ;; Invoker.first_text r) = Raise e
    /\ Invoker.req_model rq = "claude-3-haiku-20240307".
Proof.
  intros Hkey Hlib Hcl Hex. unfold Invoker.call_claude_api.
  rewrite Hkey, Hlib, Hcl. cbn [negb].
  rewrite (exhausts_run _ _ _ _ _ _ _ Hex).
  destruct (exhausts_last _ _ _ _ _ _ _ Hex)
    as (e & before & rq & -> & -> & Hans & Hm); [discriminate|].
  exists e, before, rq. cbn [fst]. repeat split; auto.
Qed.

Lemma exhausted_reports_last_error_witness :
  exists e before rq,
    Some (Scenario.not_found "claude-3-haiku-20240307") = Some e
    /\ Invoker.call_claude_api
         (Scenario.with_key Scenario.retry_unreachable) "p"
       = Some ("Error: No working Claude model found. Last error: "
               ++ str_exn e)
    /\ Invoker.try_models Scenario.retry_unreachable "p"
         Invoker.models_to_try None []
       = ("Error: No working Claude model found. Last error: "
          ++ str_exn e,
          [ Invoker.MkRequest "claude-3-5-sonnet-20241022" 8192 "p";
            Invoker.MkRequest "claude-3-5-sonnet-20241022" 4096 "p";
            Invoker.MkRequest "claude-3-5-sonnet-20240620" 8192 "p";
            Invoker.MkRequest "claude-3-5-sonnet-20240620" 4096 "p";
            Invoker.MkRequest "claude-3-opus-20240229" 4096 "p";
            Invoker.MkRequest "claude-3-sonnet-20240229" 4096 "p";
            Invoker.MkRequest "claude-3-haiku-20240307" 4096 "p" ])
    /\ [ Invoker.MkRequest "claude-3-5-sonnet-20241022" 8192 "p";
         Invoker.MkRequest "claude-3-5-sonnet-20241022" 4096 "p";
         Invoker.MkRequest "claude-3-5-sonnet-20240620" 8192 "p";
         Invoker.MkRequest "claude-3-5-sonnet-20240620" 4096 "p";
         Invoker.MkRequest "claude-3-opus-20240229" 4096 "p";
         Invoker.MkRequest "claude-3-sonnet-20240229" 4096 "p";
         Invoker.MkRequest "claude-3-haiku-20240307" 4096 "p" ]
       = (before ++ [rq])%list
    /\ (r <- Scenario.retry_unreachable before rq ;; Invoker.first_text r)
       = Raise e
    /\ Invoker.req_model rq = "claude-3-haiku-20240307".
Proof.
  apply (exhausted_reports_last_error
           (Scenario.with_key Scenario.retry_unreachable) "p").
  - reflexivity.
  - reflexivity.
  - reflexivity.
  - unfold Invoker.models_to_try.
    eapply Invoker.exhausts_cons;
      [eapply Invoker.retry_fails; reflexivity|].
    eapply Invoker.exhausts_cons;
      [eapply Invoker.retry_fails; reflexivity|].
    eapply Invoker.exhausts_cons;
      [eapply Invoker.not_found_fails; reflexivity|].
    eapply Invoker.exhausts_cons;
      [eapply Invoker.not_found_fails; reflexivity|].
    eapply Invoker.exhausts_cons;
      [eapply Invoker.not_found_fails; reflexivity|].
    apply Invoker.exhausts_nil.
Defined.

(** Attempting every candidate without content is not yet exhaustion:
    when the last candidate fails outside the two classes, all five
    have been tried and the result is the error of that candidate. *)
Example last_candidate_abort :
  Invoker.try_models Scenario.last_unreachable "p"
    Invoker.models_to_try None []
  = ("Error with model claude-3-haiku-20240307: Connection error.",
     map (Invoker.first_request "p") Invoker.models_to_try).
Proof. vm_compute. reflexivity. Qed.

(** C3, as stated, fails: with no model found the five candidates are
    all tried, none returns content, and the returned string does not
    contain "no working model found". *)
Lemma exhausted_wording_counterexample :
  exists s log,
    Invoker.call_claude_api (Scenario.with_key Scenario.nothing_found) "p"
    = Some s
    /\ Invoker.try_models Scenario.nothing_found "p"
         Invoker.models_to_try None [] = (s, log)
    /\ map Invoker.req_model log = Invoker.models_to_try
    /\ Py.contains "no working model found" s = false.
Proof.
  eexists. eexists. repeat split; vm_compute; reflexivity.
Qed.

(** C4.  When the first request for a candidate raises an exception
    that is neither a not-found nor a bad-request error, the loop ends
    at once with "Error with model <id>: <message>": that request is the
    last one made, and no later candidate is tried. *)
Theorem other_error_aborts
    (create : Invoker.endpoint) (prompt m : string) (rest : list string)
    (last_error : option exn) (log : list Invoker.request) (e : exn) :
  create log (Invoker.first_request prompt m) = Raise e ->
  exn_cls e <> NotFoundError ->
  exn_cls e <> BadRequestError ->
  Invoker.try_models create prompt (m :: rest) last_error log
  = ("Error with model " ++ m ++ ": " ++ str_exn e,
     (log ++ [Invoker.first_request prompt m])%list).
Proof.
  intros Hc Hnf Hbr. simpl. unfold Invoker.attempt.
  fold (Invoker.first_request prompt m). rewrite Hc. simpl.
  destruct (exn_cls e); congruence.
Qed.

Lemma other_error_aborts_witness :
  Invoker.try_models Scenario.unreachable "p" Invoker.models_to_try None []
  = ("Error with model claude-3-5-sonnet-20241022: Connection error.",
     [Invoker.MkRequest "claude-3-5-sonnet-20241022" 8192 "p"]).
Proof.
  apply (other_error_aborts Scenario.unreachable "p"
           "claude-3-5-sonnet-20241022" (tl Invoker.models_to_try)
           None [] Scenario.connection_error).
  - reflexivity.
  - discriminate.
  - discriminate.
Defined.

(** ** Strings *)

Lemma append_nil_r (s : string) : s ++ "" = s.
Proof. induction s as [|c s IH]; simpl; [reflexivity | now rewrite IH]. Qed.

Lemma append_assoc (s t u : string) : (s ++ t) ++ u = s ++ (t ++ u).
Proof. induction s as [|c s IH]; simpl; [reflexivity | now rewrite IH]. Qed.

Lemma length_append (s t : string) :
  String.length (s ++ t) = (String.length s + String.length t)%nat.
Proof. induction s as [|c s IH]; simpl; [reflexivity | now rewrite IH]. Qed.

Lemma take_drop (n : nat) : forall s, Py.take n s ++ Py.drop n s = s.
Proof.
  induction n as [|n IH]; intros [|c s]; simpl; try reflexivity.
  now rewrite IH.
Qed.

Lemma take_all (n : nat) : forall s,
  (String.length s <= n)%nat -> Py.take n s = s.
Proof.
  induction n as [|n IH]; intros [|c s] H; simpl in *; try reflexivity.
  - lia.
  - rewrite IH; [reflexivity | lia].
Qed.

Lemma length_take (n : nat) : forall s,
  String.length (Py.take n s) = Nat.min n (String.length s).
Proof.
  induction n as [|n IH]; intros [|c s]; simpl; try reflexivity.
  now rewrite IH.
Qed.

Lemma rfind_lower_bound c s : -1 <= Py.rfind c s.
Proof.
  induction s as [|a s IH]; simpl; [lia|].
  destruct (0 <=? Py.rfind c s) eqn:E; [lia|].
  destruct (Ascii.eqb a c); lia.
Qed.

(** At a found index the string continues with the character sought. *)
Lemma rfind_drop c s :
  0 <= Py.rfind c s ->
  exists t, Py.drop (Z.to_nat (Py.rfind c s)) s = String c t.
Proof.
  induction s as [|a s IH]; simpl; [lia|].
  destruct (0 <=? Py.rfind c s) eqn:E.
  - intros _. apply Z.leb_le in E. destruct (IH E) as [t Ht].
    exists t. replace (Z.to_nat (Py.rfind c s + 1))
      with (S (Z.to_nat (Py.rfind c s))) by lia.
    exact Ht.
  - destruct (Ascii.eqb a c) eqn:Eac; [|lia].
    intros _. apply Ascii.eqb_eq in Eac. subst a. now exists s.
Qed.

(** ** Extraction *)

(** The two parts of [splitext] make up the path, and the second is
    empty or starts at a dot. *)
Lemma splitext_parts (p : string) :
  p = fst (Extractor.splitext p) ++ snd (Extractor.splitext p)
  /\ (snd (Extractor.splitext p) = ""
      \/ exists t, snd (Extractor.splitext p) = String "." t).
Proof.
  unfold Extractor.splitext.
  destruct (Py.rfind "/" p <? Py.rfind "." p) eqn:E; simpl.
  - destruct (Extractor.name_before_dot _ _ _); simpl.
    + split; [now rewrite take_drop|]. right.
      apply rfind_drop. apply Z.ltb_lt in E.
      pose proof (rfind_lower_bound "/" p). lia.
    + split; [now rewrite append_nil_r | now left].
  - split; [now rewrite append_nil_r | now left].
Qed.

Lemma splitext_without_dot (p : string) :
  Py.rfind "." p = -1 -> snd (Extractor.splitext p) = "".
Proof.
  intros H. unfold Extractor.splitext. rewrite H.
  pose proof (rfind_lower_bound "/" p).
  destruct (Py.rfind "/" p <? -1) eqn:E; [|reflexivity].
  apply Z.ltb_lt in E. lia.
Qed.

Lemma pdf_pages_all_read (texts : list string) : forall text,
  Extractor.pdf_pages (map Ok texts) text
  = Ok (text ++ String.concat ""
                  (map (fun t => t ++ String Py.newline "") texts)).
Proof.
  induction texts as [|t ts IH]; intros text; simpl.
  - now rewrite append_nil_r.
  - rewrite IH. f_equal. rewrite append_assoc. f_equal.
    destruct ts as [|t' ts']; simpl; [now rewrite append_nil_r | reflexivity].
Qed.

(** The scenario of the specification: three pages "A", "B", "C". *)
Example three_page_pdf :
  Extractor.extract_text Scenario.documents "temp_uploads/abc.pdf"
  = "A" ++ Upload.nl ++ "B" ++ Upload.nl ++ "C" ++ Upload.nl.
Proof. reflexivity. Qed.

Lemma concat_empty_cons (t : string) (ts : list string) :
  String.concat "" (t :: ts) = t ++ String.concat "" ts.
Proof. destruct ts; simpl; [now rewrite append_nil_r | reflexivity]. Qed.

Lemma concat_empty_app (a b : list string) :
  String.concat "" (a ++ b)%list = String.concat "" a ++ String.concat "" b.
Proof.
  induction a as [|t a IH]; [reflexivity|].
  change ((t :: a) ++ b)%list with (t :: (a ++ b))%list.
  now rewrite !concat_empty_cons, IH, append_assoc.
Qed.

(** What the page loop does with what the parser answers. *)
Lemma pdf_pages_reads (parts : list (result string)) : forall text,
  Extractor.pdf_pages parts text
  = match Extractor.first_failure parts with
    | Some e => Raise e
    | None => Ok (text ++ Extractor.each_line (Extractor.texts_of parts))
    end.
Proof.
  induction parts as [|[t|e] parts IH]; intros text.
  - simpl. now rewrite append_nil_r.
  - cbn [Extractor.pdf_pages bind Extractor.first_failure Extractor.texts_of].
    rewrite IH. destruct (Extractor.first_failure parts); [reflexivity|].
    f_equal. unfold Extractor.each_line. cbn [map].
    rewrite (concat_empty_cons (t ++ String Py.newline "")).
    now rewrite append_assoc.
  - reflexivity.
Qed.

Lemma docx_paragraphs_reads (parts : list (result string)) :
  Extractor.docx_paragraphs parts
  = match Extractor.first_failure parts with
    | Some e => Raise e
    | None => Ok (Extractor.texts_of parts)
    end.
Proof.
  induction parts as [|[t|e] parts IH]; [reflexivity| |reflexivity].
  cbn [Extractor.docx_paragraphs bind Extractor.first_failure
       Extractor.texts_of].
  rewrite IH. now destruct (Extractor.first_failure parts).
Qed.

Lemma pdf_pages_app (a b : list (result string)) : forall text,
  Extractor.pdf_pages (a ++ b)%list text
  = (text' <- Extractor.pdf_pages a text ;; Extractor.pdf_pages b text').
Proof.
  induction a as [|[t|e] a IH]; intros text; [reflexivity| |reflexivity].
  cbn [app Extractor.pdf_pages bind]. apply IH.
Qed.

(** The shape loop is the page loop over the shapes that have text. *)
Lemma pptx_shapes_reads (slide : list (option (result string))) :
  forall text,
  Extractor.pptx_shapes slide text
  = Extractor.pdf_pages (Extractor.shapes_with_text slide) text.
Proof.
  induction slide as [|[[t|e]|] slide IH]; intros text;
    [reflexivity| |reflexivity|].
  - cbn [Extractor.pptx_shapes bind]. rewrite IH. reflexivity.
  - cbn [Extractor.pptx_shapes]. rewrite IH. reflexivity.
Qed.

Lemma pptx_slides_reads (slides : list (list (option (result string)))) :
  forall text,
  Extractor.pptx_slides slides text
  = Extractor.pdf_pages (flat_map Extractor.shapes_with_text slides) text.
Proof.
  induction slides as [|slide slides IH]; intros text; [reflexivity|].
  cbn [Extractor.pptx_slides flat_map].
  rewrite pdf_pages_app, pptx_shapes_reads.
  destruct (Extractor.pdf_pages (Extractor.shapes_with_text slide) text);
    cbn [bind]; [apply IH | reflexivity].
Qed.

(** C5.  For a path whose lowercased extension is .pdf, .docx or .pptx,
    [extract_text] is a total function into strings, fixed by what the
    parsing library answers.  When opening the document raises [e], or
    when the first page, paragraph or shape with text that cannot be
    read raises [e], the result is "Error extracting <FORMAT>: "
    followed by the message of [e], and so begins with
    "Error extracting".  Otherwise it is the extracted text: every page
    text followed by a newline for PDF, the paragraph texts joined by
    newlines for DOCX, every shape text followed by a newline for
    PPTX. *)
Theorem extract_text_supported
    (P : Extractor.parsers) (path fmt : string)
    (opened : result (list (result string)))
    (join : list string -> string) :
  In (Extractor.extension path, fmt, opened, join)
     [ (".pdf", "PDF", Extractor.PdfReader P path, Extractor.each_line);
       (".docx", "DOCX", Extractor.Document P path,
        String.concat (String Py.newline ""));
       (".pptx", "PPTX",
        (slides <- Extractor.Presentation P path ;;
         Ok (flat_map Extractor.shapes_with_text slides)),
        Extractor.each_line) ] ->
  match opened with
  | Raise e => Extractor.reports fmt e (Extractor.extract_text P path)
  | Ok parts =>
      match Extractor.first_failure parts with
      | Some e => Extractor.reports fmt e (Extractor.extract_text P path)
      | None =>
          Extractor.extract_text P path = join (Extractor.texts_of parts)
      end
  end.
Proof.
  assert (Rep : forall fmt e,
            Extractor.reports fmt e
              ("Error extracting " ++ fmt ++ ": " ++ str_exn e))
    by (intros; split; reflexivity).
  intros [H | [H | [H | []]]]; injection H as Hext <- <- <-;
    unfold Extractor.extract_text; rewrite <- Hext;
    cbn [String.eqb Ascii.eqb Bool.eqb].
  - unfold Extractor.extract_text_from_pdf, Extractor.read_pdf.
    destruct (Extractor.PdfReader P path) as [parts|e]; cbn [bind];
      [|apply Rep].
    rewrite pdf_pages_reads.
    destruct (Extractor.first_failure parts); [apply Rep | reflexivity].
  - unfold Extractor.extract_text_from_docx, Extractor.read_docx.
    destruct (Extractor.Document P path) as [parts|e]; cbn [bind];
      [|apply Rep].
    rewrite docx_paragraphs_reads.
    destruct (Extractor.first_failure parts); [apply Rep | reflexivity].
  - unfold Extractor.extract_text_from_pptx, Extractor.read_pptx.
    destruct (Extractor.Presentation P path) as [slides|e]; cbn [bind];
      [|apply Rep].
    rewrite pptx_slides_reads, pdf_pages_reads.
    destruct (Extractor.first_failure _); [apply Rep | reflexivity].
Qed.

Lemma extract_text_supported_witness :
  Extractor.reports "PDF" Scenario.corrupt
    (Extractor.extract_text Scenario.half_read "temp_uploads/scan.PDF").
Proof.
  apply (extract_text_supported Scenario.half_read "temp_uploads/scan.PDF"
           "PDF" (Ok [Ok "A"; Raise Scenario.corrupt; Ok "C"])
           Extractor.each_line).
  left. reflexivity.
Defined.

(** C6.  For a path whose lowercased extension is none of .pdf, .docx
    and .pptx, [extract_text] returns "Unsupported file format: "
    followed by that extension.  The extension is the lowercased second
    part of [splitext]: a suffix of the path that is empty or starts
    with a dot, and is empty when the path has no dot. *)
Theorem extract_text_unsupported (P : Extractor.parsers) (path : string) :
  let ext := Extractor.extension path in
  ext <> ".pdf" -> ext <> ".docx" -> ext <> ".pptx" ->
  Extractor.extract_text P path = "Unsupported file format: " ++ ext
  /\ (exists root suffix,
        path = root ++ suffix /\ ext = Py.lower suffix
        /\ (suffix = "" \/ exists t, suffix = String "." t))
  /\ (Py.rfind "." path = -1 -> ext = "").
Proof.
  intros ext Hpdf Hdocx Hpptx. split; [|split].
  - unfold Extractor.extract_text. fold ext.
    apply String.eqb_neq in Hpdf, Hdocx, Hpptx.
    now rewrite Hpdf, Hdocx, Hpptx.
  - destruct (splitext_parts path) as [Hparts Hsuffix].
    exists (fst (Extractor.splitext path)), (snd (Extractor.splitext path)).
    auto.
  - intros Hdot. unfold ext, Extractor.extension.
    now rewrite (splitext_without_dot path Hdot).
Qed.

(** A capital beyond ASCII is lowercased as well: E acute, U+00C9,
    becomes U+00E9. *)
Example unsupported_latin1_capital :
  Extractor.extract_text Scenario.documents
    ("temp_uploads/a." ++ String (ascii_of_nat 201) "")
  = "Unsupported file format: ." ++ String (ascii_of_nat 233) "".
Proof. vm_compute. reflexivity. Qed.

Lemma extract_text_unsupported_witness :
  Extractor.extract_text Scenario.documents "temp_uploads/notes.v1/Report.TXT"
  = "Unsupported file format: .txt".
Proof.
  refine (proj1 (extract_text_unsupported Scenario.documents
                   "temp_uploads/notes.v1/Report.TXT" _ _ _));
    vm_compute; discriminate.
Defined.

(** ** PDF layout *)

Section Layout.

Import Exporter.

Lemma height_letter : height = 792.
Proof. reflexivity. Qed.

Lemma well_placed_nil : well_placed [].
Proof. intros [|k] c t H; discriminate H. Qed.

Lemma well_placed_snoc p text :
  well_placed p -> well_placed (p ++ [(line_y (length p), text)])%list.
Proof.
  intros Hp k c t H.
  destruct (Nat.lt_ge_cases k (length p)) as [Hk | Hk].
  - rewrite nth_error_app1 in H by exact Hk. exact (Hp k c t H).
  - rewrite nth_error_app2 in H by exact Hk.
    destruct (k - length p)%nat as [|j] eqn:E; simpl in H.
    + injection H as <- _. f_equal. lia.
    + destruct j; discriminate H.
Qed.

Lemma layout_inv_begin : layout_inv begin_layout.
Proof.
  unfold layout_inv, begin_layout, line_y. simpl.
  repeat split; [lia | apply well_placed_nil | constructor].
Qed.

(** One iteration keeps the invariant and leaves a line in the text
    object. *)
Lemma layout_line_inv st line :
  layout_inv st ->
  layout_inv (layout_line st line) /\ text_object (layout_line st line) <> [].
Proof.
  intros (Hy & Hlen & Hwp & Hshown).
  unfold lines_per_page in Hlen.
  assert (Hy' : y st = 752 - 12 * Z.of_nat (length (text_object st))).
  { rewrite Hy. unfold line_y. rewrite height_letter. lia. }
  unfold layout_line, page_break.
  destruct (y st <? 40) eqn:E; cbn [y text_object shown].
  - apply Z.ltb_lt in E.
    assert (Hfull : length (text_object st) = 60%nat) by lia.
    split; [|discriminate].
    unfold layout_inv, lines_per_page. cbn [y text_object shown app length].
    split; [|split; [|split]].
    + unfold line_y. lia.
    + lia.
    + apply (well_placed_snoc [] (emit_line line) well_placed_nil).
    + apply Forall_app. split; [exact Hshown|].
      constructor; [split; assumption | constructor].
  - apply Z.ltb_ge in E.
    split; [|intros H; apply app_eq_nil in H; destruct H; discriminate].
    unfold layout_inv, lines_per_page. cbn [y text_object shown].
    rewrite length_app. cbn [length].
    split; [|split; [|split]].
    + rewrite Hy. unfold line_y. lia.
    + lia.
    + rewrite Hy. apply well_placed_snoc. exact Hwp.
    + exact Hshown.
Qed.

Lemma layout_fold_inv lines : forall st,
  layout_inv st -> layout_inv (fold_left layout_line lines st).
Proof.
  induction lines as [|l ls IH]; intros st H; simpl; [exact H|].
  apply IH. now apply layout_line_inv.
Qed.

Lemma layout_fold_nonempty lines st :
  layout_inv st -> lines <> [] ->
  text_object (fold_left layout_line lines st) <> [].
Proof.
  intros Hinv Hne.
  destruct (exists_last Hne) as (front & l & ->).
  rewrite fold_left_app. simpl.
  apply layout_line_inv. now apply layout_fold_inv.
Qed.

(** Each iteration draws exactly one line, after all earlier ones. *)
Lemma drawn_layout_line st line :
  drawn (layout_line st line)
  = (drawn st ++ [(y (page_break st), emit_line line)])%list.
Proof.
  unfold drawn, layout_line, page_break.
  destruct (y st <? 40); simpl; rewrite !concat_app; simpl;
    rewrite ?app_nil_r, <- ?app_assoc; reflexivity.
Qed.

Lemma drawn_fold lines : forall st,
  map snd (drawn (fold_left layout_line lines st))
  = (map snd (drawn st) ++ map emit_line lines)%list.
Proof.
  induction lines as [|l ls IH]; intros st; simpl.
  - now rewrite app_nil_r.
  - rewrite IH, drawn_layout_line, map_app. simpl.
    now rewrite <- app_assoc.
Qed.

Lemma split_lines_nonempty s : Py.split_lines s <> [].
Proof.
  destruct s as [|c s]; simpl; [discriminate|].
  destruct (Ascii.eqb c Py.newline); [discriminate|].
  destruct (Py.split_lines s); discriminate.
Qed.

Lemma full_pages_length (ps : list page) :
  Forall (fun p => length p = lines_per_page /\ well_placed p) ps ->
  length (concat ps) = (lines_per_page * length ps)%nat.
Proof.
  induction 1 as [|p ps [Hp _] _ IH]; simpl; [lia|].
  rewrite length_app, IH, Hp. unfold lines_per_page. lia.
Qed.

End Layout.

Lemma emit_line_short line :
  (String.length line <= 90)%nat -> Exporter.emit_line line = line.
Proof.
  intros H. unfold Exporter.emit_line.
  assert (E : (90 <? String.length line)%nat = false)
    by (apply Nat.ltb_ge; exact H).
  rewrite E, append_nil_r. now apply take_all.
Qed.

Lemma emit_line_long line :
  (90 < String.length line)%nat ->
  Exporter.emit_line line = Py.take 90 line ++ "...".
Proof.
  intros H. unfold Exporter.emit_line.
  apply Nat.ltb_lt in H. now rewrite H.
Qed.

(** C7.  The lines drawn into the PDF are, in order, the lines of the
    content split at newlines, each cut to its first 90 characters and
    followed by "..." exactly when it is longer than 90 characters; a
    line of at most 90 characters is drawn as it is. *)
Theorem pdf_lines_truncated (content : string) :
  map snd (concat (Exporter.render_pdf content))
  = map Exporter.emit_line (Py.split_lines content)
  /\ forall line,
       (Exporter.emit_line line = Py.take 90 line ++ "..."
        <-> (90 < String.length line)%nat)
       /\ ((String.length line <= 90)%nat -> Exporter.emit_line line = line).
Proof.
  split.
  - unfold Exporter.render_pdf.
    exact (drawn_fold (Py.split_lines content) Exporter.begin_layout).
  - intros line. split; [split|].
    + intros H.
      destruct (Nat.lt_ge_cases 90 (String.length line)) as [Hl | Hs];
        [exact Hl|].
      rewrite (emit_line_short line Hs) in H.
      apply (f_equal String.length) in H.
      rewrite length_append, length_take in H.
      change (String.length "...") with 3%nat in H. lia.
    + apply emit_line_long.
    + apply emit_line_short.
Qed.

Lemma pdf_lines_truncated_witness :
  Exporter.emit_line "# Summary" = "# Summary".
Proof.
  apply (pdf_lines_truncated "# Summary"). vm_compute. lia.
Defined.

(** C8.  In the PDF every page is non-empty and holds at most 60 lines;
    its line of index k is drawn with the cursor at height - 40 - 12 k,
    which is at least the bottom margin 40; every page but the last
    holds exactly 60 lines, the next line being the one that would
    cross the margin; and content of more than 60 lines gives more than
    one page. *)
Theorem pdf_pagination (content : string) :
  let pages := Exporter.render_pdf content in
  (forall p, In p pages ->
     p <> []
     /\ (length p <= 60)%nat
     /\ forall k cursor text,
          nth_error p k = Some (cursor, text) ->
          cursor = Exporter.height - 40 - 12 * Z.of_nat k /\ 40 <= cursor)
  /\ (forall i p,
        nth_error pages i = Some p -> (S i < length pages)%nat ->
        length p = 60%nat)
  /\ ((60 < length (Py.split_lines content))%nat -> (1 < length pages)%nat).
Proof.
  intros pages. unfold pages, Exporter.render_pdf.
  set (st := fold_left Exporter.layout_line (Py.split_lines content)
               Exporter.begin_layout).
  assert (Hinv : Exporter.layout_inv st)
    by (apply layout_fold_inv, layout_inv_begin).
  assert (Hne : Exporter.text_object st <> [])
    by (apply layout_fold_nonempty;
        [apply layout_inv_begin | apply split_lines_nonempty]).
  destruct Hinv as (Hy & Hlen & Hwp & Hshown).
  unfold Exporter.lines_per_page in *.
  assert (Hplace : forall p, (length p <= 60)%nat -> Exporter.well_placed p ->
            forall k cursor text, nth_error p k = Some (cursor, text) ->
            cursor = Exporter.height - 40 - 12 * Z.of_nat k /\ 40 <= cursor).
  { intros p Hp Hw k cursor text Hk.
    assert (Hlt : (k < length p)%nat)
      by (apply nth_error_Some; rewrite Hk; discriminate).
    rewrite (Hw k cursor text Hk). unfold Exporter.line_y.
    rewrite height_letter. lia. }
  split; [|split].
  - intros p Hin. apply in_app_or in Hin. destruct Hin as [Hin | [<- | []]].
    + rewrite Forall_forall in Hshown. destruct (Hshown p Hin) as [Hp Hw].
      split; [intros ->; discriminate Hp|].
      split; [lia|]. apply Hplace; [lia | exact Hw].
    + split; [exact Hne|]. split; [exact Hlen|]. now apply Hplace.
  - intros i p Hi Hlast. rewrite length_app in Hlast. simpl in Hlast.
    rewrite nth_error_app1 in Hi by lia.
    rewrite Forall_forall in Hshown.
    apply (Hshown p). eapply nth_error_In. exact Hi.
  - intros Hmany. rewrite length_app. simpl.
    assert (Hcount : length (Exporter.drawn st)
                     = length (Py.split_lines content)).
    { pose proof (f_equal (@length _)
                    (drawn_fold (Py.split_lines content)
                       Exporter.begin_layout)) as H.
      rewrite length_app, !length_map in H. exact H. }
    unfold Exporter.drawn in Hcount.
    rewrite concat_app, length_app in Hcount. simpl in Hcount.
    rewrite app_nil_r in Hcount.
    rewrite (full_pages_length _ Hshown) in Hcount.
    unfold Exporter.lines_per_page in Hcount. lia.
Qed.

Lemma pdf_pagination_witness :
  (1 < length (Exporter.render_pdf
                 (String.concat Upload.nl (repeat "row" 61))))%nat.
Proof.
  apply (pdf_pagination (String.concat Upload.nl (repeat "row" 61))).
  vm_compute. lia.
Defined.

(** ** Export of text formats *)

Lemma encode_latin1_widen (s : string) : Py.encode_latin1 (Py.widen s) = inl s.
Proof.
  induction s as [|c s IH]; [reflexivity|].
  cbn [Py.widen Py.encode_latin1].
  assert (H : (N_of_ascii c <=? 255)%N = true).
  { apply N.leb_le. pose proof (N_ascii_bounded c). lia. }
  now rewrite H, IH, ascii_N_embedding.
Qed.

Lemma widen_append (s t : string) :
  Py.widen (s ++ t) = (Py.widen s ++ Py.widen t)%list.
Proof. induction s as [|c s IH]; simpl; [reflexivity | now rewrite IH]. Qed.

(** A header naming a file within U+00FF is encoded as it stands. *)
Lemma disposition_latin1 (name ext : string) :
  Py.encode_latin1 (Exporter.disposition (Py.widen name) ext)
  = inl ("attachment; filename=" ++ name ++ ext).
Proof.
  unfold Exporter.disposition.
  rewrite <- !widen_append. apply encode_latin1_widen.
Qed.

(** C9, as the code has it.  For every content and every filename whose
    characters all lie within U+00FF, exporting with format "md"
    returns the content unchanged with media type "text/markdown" and a
    disposition naming "<f>.md", and format "txt" returns it unchanged
    with "text/plain" and "<f>.txt". *)
Theorem text_export_identity (x f : string) :
  Exporter.download_result (Exporter.MkDownloadRequest x "md" (Py.widen f))
  = Exporter.Respond
      (Exporter.MkResponse (Exporter.Text x) "text/markdown"
         ("attachment; filename=" ++ f ++ ".md"))
  /\ Exporter.download_result
       (Exporter.MkDownloadRequest x "txt" (Py.widen f))
     = Exporter.Respond
         (Exporter.MkResponse (Exporter.Text x) "text/plain"
            ("attachment; filename=" ++ f ++ ".txt")).
Proof.
  unfold Exporter.download_result, Exporter.make_response.
  cbn [Exporter.format Exporter.filename Exporter.content].
  change (Py.lower "md") with "md". change (Py.lower "txt") with "txt".
  cbn [String.eqb Ascii.eqb Bool.eqb].
  rewrite !disposition_latin1. split; reflexivity.
Qed.

(** C9, as stated, fails: for the filename made of the euro sign,
    U+20AC, building the response raises, at the index of that
    character in the header value, and nothing is returned. *)
Lemma text_export_counterexample :
  Exporter.download_result
    (Exporter.MkDownloadRequest "# Title" "md" [8364%N])
  = Exporter.UnicodeEncodeError "latin-1" 21
  /\ forall r,
       Exporter.download_result
         (Exporter.MkDownloadRequest "# Title" "md" [8364%N])
       <> Exporter.Respond r.
Proof. split; [reflexivity | intros r; vm_compute; discriminate]. Qed.

(** ** Substrings *)

Lemma prefix_append (s t : string) : String.prefix s (s ++ t) = true.
Proof.
  induction s as [|c s IH]; simpl; [now destruct t|].
  destruct (ascii_dec c c) as [_|N]; [exact IH | now elim N].
Qed.

Lemma prefix_append_left (sub s t : string) :
  String.prefix sub s = true -> String.prefix sub (s ++ t) = true.
Proof.
  revert s. induction sub as [|c sub IH]; intros s H.
  - now destruct (s ++ t).
  - destruct s as [|a s]; simpl in *; [discriminate|].
    destruct (ascii_dec c a); [now apply IH | discriminate].
Qed.

Lemma contains_here (s t : string) : Py.contains s (s ++ t) = true.
Proof.
  assert (H := prefix_append s t).
  destruct (s ++ t); simpl; simpl in H; rewrite H; reflexivity.
Qed.

Lemma contains_skip (sub s t : string) :
  Py.contains sub t = true -> Py.contains sub (s ++ t) = true.
Proof.
  intros H. induction s as [|c s IH]; simpl; [exact H|].
  rewrite IH. apply orb_true_r.
Qed.

Lemma contains_in_left (sub s t : string) :
  Py.contains sub s = true -> Py.contains sub (s ++ t) = true.
Proof.
  induction s as [|c s IH]; intros H.
  - simpl in H. rewrite orb_false_r in H.
    destruct sub; [|discriminate]. now destruct t.
  - cbn [Py.contains] in H. apply orb_true_iff in H.
    change (String c s ++ t) with (String c (s ++ t)).
    cbn [Py.contains]. apply orb_true_iff. destruct H as [H | H].
    + left. exact (prefix_append_left sub (String c s) t H).
    + right. now apply IH.
Qed.

Lemma contains_here3 (a b c rest : string) :
  Py.contains (a ++ b ++ c) (a ++ b ++ c ++ rest) = true.
Proof.
  replace (a ++ b ++ c ++ rest) with ((a ++ b ++ c) ++ rest)
    by now rewrite !append_assoc.
  apply contains_here.
Qed.

(** Find a literal of a right-nested concatenation that holds [sub]. *)
Ltac find_segment :=
  first [ apply contains_in_left; vm_compute; reflexivity
        | apply contains_skip; find_segment ].

(** ** Upload handler *)

Lemma mock_embeds_count (name text : string) :
  Py.contains
    ("The document contains " ++ Py.str_of_nat (String.length text)
     ++ " characters.")
    (Upload.mock_response name text) = true.
Proof.
  unfold Upload.mock_response.
  do 11 apply contains_skip.
  apply contains_here3.
Qed.

Lemma mock_embeds_data_points (name text : string) :
  Py.contains "Simulation Data A" (Upload.mock_response name text) = true
  /\ Py.contains "Simulation Data B" (Upload.mock_response name text) = true.
Proof.
  unfold Upload.mock_response. split; find_segment.
Qed.

(** Without a credential nothing is requested and the result is [None]. *)
Lemma call_without_key (E : Invoker.env) (prompt : string) :
  Invoker.no_key (Invoker.api_key E) = true ->
  Invoker.call_claude_api E prompt = None.
Proof. intros H. unfold Invoker.call_claude_api. now rewrite H. Qed.

(** C10.  When the invoker returns [None] in one environment and the
    empty string in another, the upload handler builds the same record
    in both: the response is the simulated one, which holds the number
    of extracted characters and the two placeholder data points. *)
Theorem empty_completion_gets_simulation
    (P : Extractor.parsers) (get_prompt : string -> string)
    (E_missing E_empty : Invoker.env) (name : string) :
  let text := Extractor.extract_text P (Upload.temp_path name) in
  Invoker.call_claude_api E_missing (get_prompt text) = None ->
  Invoker.call_claude_api E_empty (get_prompt text) = Some "" ->
  Upload.process_file P get_prompt E_missing name
  = Upload.process_file P get_prompt E_empty name
  /\ Upload.ai_response (Upload.process_file P get_prompt E_empty name)
     = Upload.mock_response name text
  /\ Py.contains
       ("The document contains " ++ Py.str_of_nat (String.length text)
        ++ " characters.")
       (Upload.mock_response name text) = true
  /\ Py.contains "Simulation Data A" (Upload.mock_response name text) = true
  /\ Py.contains "Simulation Data B" (Upload.mock_response name text) = true.
Proof.
  intros text Hmissing Hempty. unfold Upload.process_file. fold text.
  rewrite Hmissing, Hempty. cbn [Upload.falsy Upload.ai_response].
  split; [reflexivity|]. split; [reflexivity|].
  split; [apply mock_embeds_count | apply mock_embeds_data_points].
Qed.

Lemma empty_completion_gets_simulation_witness :
  Upload.process_file Scenario.documents Scenario.get_prompt
    Scenario.without_key "abc.pdf"
  = Upload.process_file Scenario.documents Scenario.get_prompt
      (Scenario.with_key Scenario.empty_answer) "abc.pdf".
Proof.
  refine (proj1 (empty_completion_gets_simulation Scenario.documents
                   Scenario.get_prompt Scenario.without_key
                   (Scenario.with_key Scenario.empty_answer) "abc.pdf" _ _));
    vm_compute; reflexivity.
Defined.

(** ** Further properties of the fallback loop *)

Section LoopShape.

Import Invoker.

Variable create : endpoint.
Variable prompt : string.

Local Abbreviation run := (try_models create prompt).
Local Abbreviation answer log rq := (r <- create log rq ;; first_text r).

(** The three ways a run can end, read off its result and log. *)
Let shape (models : list string) (last_error : option exn)
    (log : list request) (res : string * list request) : Prop :=
  (exists before rq text more,
     snd res = (before ++ [rq])%list
     /\ create before rq = Ok (text :: more) /\ fst res = text)
  \/ (exists before m e,
        snd res = (before ++ [first_request prompt m])%list
        /\ In m models
        /\ answer before (first_request prompt m) = Raise e
        /\ exn_cls e = OtherError
        /\ fst res = "Error with model " ++ m ++ ": " ++ str_exn e)
  \/ (exists le,
        fst res = exhausted_text le
        /\ ((models = [] /\ le = last_error /\ snd res = log)
            \/ (exists before rq e,
                  snd res = (before ++ [rq])%list
                  /\ answer before rq = Raise e /\ le = Some e))).

Lemma shape_continue m rest last_error log e0 before0 rq0 :
  answer before0 rq0 = Raise e0 ->
  shape rest (Some e0) (before0 ++ [rq0])%list
        (run rest (Some e0) (before0 ++ [rq0])%list) ->
  shape (m :: rest) last_error log
        (run rest (Some e0) (before0 ++ [rq0])%list).
Proof.
  intros Hans [Ha | [Hb | Hc]].
  - left. exact Ha.
  - right. left. destruct Hb as (before & m' & e & H1 & H2 & H3).
    exists before, m', e. split; [exact H1|]. split; [now right | exact H3].
  - right. right. destruct Hc as (le & Hs & [(_ & Hle & Hlog) | Hlast]).
    + exists le. split; [exact Hs|]. right.
      exists before0, rq0, e0. auto.
    + exists le. split; [exact Hs|]. right. exact Hlast.
Qed.

Lemma try_models_shape models : forall last_error log,
  shape models last_error log (run models last_error log).
Proof.
  induction models as [|m rest IH]; intros last_error log.
  - right. right. exists last_error. split; [reflexivity|]. left. auto.
  - assert (Next : forall e0 before0 rq0,
              answer before0 rq0 = Raise e0 ->
              shape (m :: rest) last_error log
                (run rest (Some e0) (before0 ++ [rq0])%list)).
    { intros e0 before0 rq0 H. apply shape_continue; [exact H | apply IH]. }
    cbn [try_models]. unfold attempt. fold (first_request prompt m).
    destruct (create log (first_request prompt m)) as [[|t more]|e] eqn:Ec;
      cbn [bind first_text].
    + right. left. exists log, m, index_error.
      split; [reflexivity|]. split; [now left|].
      rewrite Ec. auto.
    + left. exists log, (first_request prompt m), t, more. auto.
    + assert (Ha : answer log (first_request prompt m) = Raise e)
        by now rewrite Ec.
      destruct (exn_cls e) eqn:Ecls.
      * now apply Next.
      * destruct (Py.contains "max_tokens" (str_exn e)
                  && (4096 <? max_tokens_limit m)); [|now apply Next].
        set (log1 := (log ++ [first_request prompt m])%list).
        set (rq2 := MkRequest m 4096 prompt).
        destruct (create log1 rq2) as [[|t more]|e2] eqn:Ec2;
          cbn [bind first_text].
        -- apply Next. now rewrite Ec2.
        -- left. exists log1, rq2, t, more. auto.
        -- apply Next. now rewrite Ec2.
      * right. left. exists log, m, e.
        split; [reflexivity|]. split; [now left|]. auto.
Qed.

(** Every request made carries the prompt, names a candidate, and asks
    for that candidate's ceiling or for 4096; there are at most one per
    candidate, and one more for each candidate of higher ceiling. *)
Lemma try_models_requests models : forall last_error log,
  exists new,
    snd (run models last_error log) = (log ++ new)%list
    /\ Forall (fun rq =>
                 In (req_model rq) models
                 /\ req_prompt rq = prompt
                 /\ (req_max_tokens rq = max_tokens_limit (req_model rq)
                     \/ req_max_tokens rq = 4096)) new
    /\ (length new
        <= length models
           + length (filter (fun m => (4096 <? max_tokens_limit m)%Z) models))%nat.
Proof.
  induction models as [|m rest IH]; intros last_error log.
  - exists []. simpl. rewrite app_nil_r. auto.
  - set (ok := fun models rq =>
                 In (req_model rq) models
                 /\ req_prompt rq = prompt
                 /\ (req_max_tokens rq = max_tokens_limit (req_model rq)
                     \/ req_max_tokens rq = 4096)).
    assert (Hmono : forall l, Forall (ok rest) l -> Forall (ok (m :: rest)) l).
    { intros l H. eapply Forall_impl; [|exact H].
      intros rq (H1 & H2 & H3). split; [now right | auto]. }
    assert (Hok1 : ok (m :: rest) (first_request prompt m))
      by (split; [now left | split; [reflexivity | now left]]).
    assert (Hok2 : ok (m :: rest) (MkRequest m 4096 prompt))
      by (split; [now left | split; [reflexivity | now right]]).
    assert (Next : forall e,
              exists new,
                snd (run rest (Some e) (log ++ [first_request prompt m])%list)
                = (log ++ new)%list
                /\ Forall (ok (m :: rest)) new
                /\ (length new <= S (length rest)
                      + length (filter (fun m => (4096 <? max_tokens_limit m)%Z)
                                  rest))%nat).
    { intros e.
      destruct (IH (Some e) (log ++ [first_request prompt m])%list)
        as (new & Hlog & Hall & Hlen).
      exists (first_request prompt m :: new). split; [|split].
      - rewrite Hlog, <- app_assoc. reflexivity.
      - constructor; [exact Hok1 | now apply Hmono].
      - simpl. lia. }
    cbn [try_models filter]. unfold attempt. fold (first_request prompt m).
    destruct (answer log (first_request prompt m)) as [text|e].
    + exists [first_request prompt m]. simpl.
      split; [reflexivity|]. split; [now constructor | lia].
    + destruct (exn_cls e).
      * destruct (Next e) as (new & H1 & H2 & H3).
        exists new. split; [exact H1|]. split; [exact H2|].
        destruct (4096 <? max_tokens_limit m); simpl; lia.
      * destruct (4096 <? max_tokens_limit m) eqn:Elim.
        -- rewrite andb_true_r.
           destruct (Py.contains "max_tokens" (str_exn e)).
           ++ destruct (answer (log ++ [first_request prompt m])%list
                          (MkRequest m 4096 prompt)) as [text|e2].
              ** exists [first_request prompt m; MkRequest m 4096 prompt].
                 cbn [snd]. split; [now rewrite <- app_assoc|].
                 split; [|simpl; lia].
                 constructor; [exact Hok1|].
                 constructor; [exact Hok2 | constructor].
              ** destruct (IH (Some e2)
                             ((log ++ [first_request prompt m])
                                ++ [MkRequest m 4096 prompt])%list)
                   as (new & Hlog & Hall & Hlen).
                 exists (first_request prompt m
                           :: MkRequest m 4096 prompt :: new).
                 split; [rewrite Hlog, <- !app_assoc; reflexivity|].
                 split; [|simpl; lia].
                 constructor; [exact Hok1|].
                 constructor; [exact Hok2 | exact (Hmono _ Hall)].
           ++ destruct (Next e) as (new & H1 & H2 & H3).
              exists new. split; [exact H1|]. split; [exact H2 | simpl; lia].
        -- rewrite andb_false_r.
           destruct (Next e) as (new & H1 & H2 & H3).
           exists new. auto.
      * exists [first_request prompt m]. cbn [snd].
        split; [reflexivity|]. split; [now constructor|].
        destruct (4096 <? max_tokens_limit m); simpl; lia.
Qed.

End LoopShape.

(** X1.  Whatever the endpoint answers, a run of the loop ends in one of
    three ways: with the first text of the response to the last request
    made; with "Error with model <id>: <message>" for a candidate of the
    sequence whose first request failed outside the not-found and
    bad-request classes; or with the exhaustion message, naming the
    failure of the last request made (or the initial last error when
    there is no candidate). *)
Theorem invoker_outcome
    (create : Invoker.endpoint) (prompt : string) (models : list string)
    (last_error : option exn) (log : list Invoker.request) :
  let res := Invoker.try_models create prompt models last_error log in
  (exists before rq text more,
     snd res = (before ++ [rq])%list
     /\ create before rq = Ok (text :: more) /\ fst res = text)
  \/ (exists before m e,
        snd res = (before ++ [Invoker.first_request prompt m])%list
        /\ In m models
        /\ (r <- create before (Invoker.first_request prompt m) ;;
            Invoker.first_text r) = Raise e
        /\ exn_cls e = OtherError
        /\ fst res = "Error with model " ++ m ++ ": " ++ str_exn e)
  \/ (exists le,
        fst res = Invoker.exhausted_text le
        /\ ((models = [] /\ le = last_error /\ snd res = log)
            \/ (exists before rq e,
                  snd res = (before ++ [rq])%list
                  /\ (r <- create before rq ;; Invoker.first_text r) = Raise e
                  /\ le = Some e))).
Proof. exact (try_models_shape create prompt models last_error log). Qed.

(** X2.  The requests a run makes are appended to the log; each carries
    the prompt, names a candidate of the sequence and asks for that
    candidate's ceiling or for 4096; their number is at most the number
    of candidates plus the number of candidates whose ceiling is above
    4096.  For the configured sequence that is at most 7 requests. *)
Theorem invoker_requests
    (create : Invoker.endpoint) (prompt : string) (models : list string)
    (last_error : option exn) (log : list Invoker.request) :
  (exists new,
     snd (Invoker.try_models create prompt models last_error log)
     = (log ++ new)%list
     /\ Forall (fun rq =>
                  In (Invoker.req_model rq) models
                  /\ Invoker.req_prompt rq = prompt
                  /\ (Invoker.req_max_tokens rq
                      = Invoker.max_tokens_limit (Invoker.req_model rq)
                      \/ Invoker.req_max_tokens rq = 4096)) new
     /\ (length new
         <= length models
            + length (filter
                        (fun m => (4096 <? Invoker.max_tokens_limit m)%Z)
                        models))%nat)
  /\ (length (snd (Invoker.try_models create prompt Invoker.models_to_try
                     None [])) <= 7)%nat.
Proof.
  split; [apply try_models_requests|].
  destruct (try_models_requests create prompt Invoker.models_to_try None [])
    as (new & Hlog & _ & Hlen).
  rewrite Hlog. exact Hlen.
Qed.

(** X3.  A bad-request error whose message does not mention
    [max_tokens], or one for a candidate whose ceiling is already 4096,
    is recorded as the last error and the next candidate is tried, with
    no second request for the same candidate. *)
Theorem bad_request_moves_on
    (create : Invoker.endpoint) (prompt m : string) (rest : list string)
    (last_error : option exn) (log : list Invoker.request) (e : exn) :
  create log (Invoker.first_request prompt m) = Raise e ->
  exn_cls e = BadRequestError ->
  Py.contains "max_tokens" (str_exn e) = false
  \/ Invoker.max_tokens_limit m <= 4096 ->
  Invoker.try_models create prompt (m :: rest) last_error log
  = Invoker.try_models create prompt rest (Some e)
      (log ++ [Invoker.first_request prompt m])%list.
Proof.
  intros Hc Hcls Hno. cbn [Invoker.try_models]. unfold Invoker.attempt.
  fold (Invoker.first_request prompt m). rewrite Hc. cbn [bind].
  rewrite Hcls.
  assert (E : Py.contains "max_tokens" (str_exn e)
              && (4096 <? Invoker.max_tokens_limit m) = false).
  { destruct Hno as [-> | H]; [reflexivity|].
    apply andb_false_iff. right. apply Z.ltb_ge. exact H. }
  now rewrite E.
Qed.

Lemma bad_request_moves_on_witness :
  Invoker.try_models Scenario.oversized "p"
    ["claude-3-5-sonnet-20241022"] None []
  = ("Error: No working Claude model found. Last error: "
     ++ "prompt is too long: 250000 tokens > 200000 maximum",
     [Invoker.MkRequest "claude-3-5-sonnet-20241022" 8192 "p"]).
Proof.
  apply (bad_request_moves_on Scenario.oversized "p"
           "claude-3-5-sonnet-20241022" [] None [] Scenario.prompt_too_long).
  - reflexivity.
  - reflexivity.
  - left. reflexivity.
Defined.

(** X4.  A first response without any content block ends the run at
    once with "Error with model <id>: list index out of range"; no
    later candidate is tried. *)
Theorem empty_content_aborts
    (create : Invoker.endpoint) (prompt m : string) (rest : list string)
    (last_error : option exn) (log : list Invoker.request) :
  create log (Invoker.first_request prompt m) = Ok [] ->
  Invoker.try_models create prompt (m :: rest) last_error log
  = ("Error with model " ++ m ++ ": list index out of range",
     (log ++ [Invoker.first_request prompt m])%list).
Proof.
  intros Hc. cbn [Invoker.try_models]. unfold Invoker.attempt.
  fold (Invoker.first_request prompt m). rewrite Hc. reflexivity.
Qed.

Lemma empty_content_aborts_witness :
  Invoker.try_models Scenario.no_blocks "p" Invoker.models_to_try None []
  = ("Error with model claude-3-5-sonnet-20241022: list index out of range",
     [Invoker.MkRequest "claude-3-5-sonnet-20241022" 8192 "p"]).
Proof.
  apply (empty_content_aborts Scenario.no_blocks "p"
           "claude-3-5-sonnet-20241022" (tl Invoker.models_to_try) None []).
  reflexivity.
Defined.

(** X5.  The invoker returns [None] exactly when the credential is
    unset or empty; with a credential it returns a string: the notice
    that the library is missing, the error of the client constructor,
    or the result of the fallback loop. *)
Theorem invoker_none_iff_no_key (E : Invoker.env) (prompt : string) :
  (Invoker.call_claude_api E prompt = None
   <-> Invoker.no_key (Invoker.api_key E) = true)
  /\ (Invoker.no_key (Invoker.api_key E) = false ->
      exists s,
        Invoker.call_claude_api E prompt = Some s
        /\ (s = "Error: anthropic library not installed."
            \/ (exists e, Invoker.make_client E = Raise e
                          /\ s = "Error calling Claude API: " ++ str_exn e)
            \/ s = fst (Invoker.try_models (Invoker.create E) prompt
                          Invoker.models_to_try None []))).
Proof.
  unfold Invoker.call_claude_api.
  destruct (Invoker.no_key (Invoker.api_key E)).
  - split; [split; reflexivity | discriminate].
  - split.
    + split; [|discriminate].
      destruct (Invoker.anthropic_installed E); cbn [negb];
        [destruct (Invoker.make_client E)|]; discriminate.
    + intros _. destruct (Invoker.anthropic_installed E); cbn [negb].
      * destruct (Invoker.make_client E) as [u|e] eqn:Ec.
        -- eexists. split; [reflexivity|]. right. right. reflexivity.
        -- eexists. split; [reflexivity|]. right. left. now exists e.
      * eexists. split; [reflexivity|]. now left.
Qed.

Lemma invoker_none_iff_no_key_witness :
  exists s,
    Invoker.call_claude_api (Scenario.with_key Scenario.only_haiku) "p"
    = Some s
    /\ (s = "Error: anthropic library not installed."
        \/ (exists e, Invoker.make_client
                        (Scenario.with_key Scenario.only_haiku) = Raise e
                      /\ s = "Error calling Claude API: " ++ str_exn e)
        \/ s = fst (Invoker.try_models Scenario.only_haiku "p"
                      Invoker.models_to_try None [])).
Proof.
  apply (invoker_none_iff_no_key (Scenario.with_key Scenario.only_haiku) "p").
  reflexivity.
Defined.

(** ** Further properties of the exporter *)

Lemma join_split_lines (s : string) :
  String.concat Upload.nl (Py.split_lines s) = s.
Proof.
  induction s as [|c s IH]; [reflexivity|].
  cbn [Py.split_lines].
  destruct (Ascii.eqb c Py.newline) eqn:E.
  - apply Ascii.eqb_eq in E. subst c.
    pose proof (split_lines_nonempty s) as Hne.
    destruct (Py.split_lines s) as [|l ls]; [now elim Hne|].
    change (String.concat Upload.nl ("" :: l :: ls))
      with ("" ++ Upload.nl ++ String.concat Upload.nl (l :: ls)).
    rewrite IH. reflexivity.
  - pose proof (split_lines_nonempty s) as Hne.
    destruct (Py.split_lines s) as [|l ls]; [now elim Hne|].
    destruct ls as [|l' ls'].
    + simpl in IH. subst l. reflexivity.
    + change (String.concat Upload.nl (String c l :: l' :: ls'))
        with (String c (l ++ Upload.nl
                          ++ String.concat Upload.nl (l' :: ls'))).
      f_equal. exact IH.
Qed.

Lemma emit_line_length (line : string) :
  (String.length (Exporter.emit_line line) <= 93)%nat.
Proof.
  unfold Exporter.emit_line. rewrite length_append, length_take.
  destruct (90 <? String.length line)%nat;
    [change (String.length "...") with 3%nat
    | change (String.length "") with 0%nat]; lia.
Qed.

Lemma lower_ascii_idempotent (c : ascii) :
  Py.lower_ascii (Py.lower_ascii c) = Py.lower_ascii c.
Proof.
  destruct c as [[] [] [] [] [] [] [] []]; vm_compute; reflexivity.
Qed.

Lemma lower_idempotent (s : string) : Py.lower (Py.lower s) = Py.lower s.
Proof.
  induction s as [|c s IH]; simpl; [reflexivity|].
  now rewrite lower_ascii_idempotent, IH.
Qed.

(** The final state of the layout loop and what it holds. *)
Lemma render_pdf_state (content : string) :
  exists st,
    Exporter.render_pdf content
    = (Exporter.shown st ++ [Exporter.text_object st])%list
    /\ Exporter.layout_inv st
    /\ Exporter.text_object st <> []
    /\ length (Py.split_lines content)
       = (60 * length (Exporter.shown st)
          + length (Exporter.text_object st))%nat.
Proof.
  exists (fold_left Exporter.layout_line (Py.split_lines content)
            Exporter.begin_layout).
  set (st := fold_left _ _ _).
  assert (Hinv : Exporter.layout_inv st)
    by (apply layout_fold_inv, layout_inv_begin).
  split; [reflexivity|]. split; [exact Hinv|]. split.
  - apply layout_fold_nonempty;
      [apply layout_inv_begin | apply split_lines_nonempty].
  - pose proof (f_equal (@length _)
                  (drawn_fold (Py.split_lines content)
                     Exporter.begin_layout)) as H.
    rewrite length_app, !length_map in H. fold st in H.
    unfold Exporter.drawn in H.
    rewrite concat_app, length_app in H. cbn [concat] in H.
    rewrite app_nil_r in H.
    destruct Hinv as (_ & _ & _ & Hshown).
    rewrite (full_pages_length _ Hshown) in H.
    unfold Exporter.lines_per_page in H. cbn [length] in H.
    cbn [Exporter.shown Exporter.text_object Exporter.begin_layout
         app concat length] in H. lia.
Qed.

(** X6.  The PDF of content with n lines has (n - 1) / 60 + 1 pages:
    one page for up to 60 lines, and one more for every further 60. *)
Theorem pdf_page_count (content : string) :
  length (Exporter.render_pdf content)
  = ((length (Py.split_lines content) - 1) / 60 + 1)%nat.
Proof.
  destruct (render_pdf_state content)
    as (st & -> & (_ & Hlen & _) & Hne & Hcount).
  unfold Exporter.lines_per_page in Hlen.
  rewrite length_app. cbn [length]. f_equal.
  assert (Hpos : (0 < length (Exporter.text_object st))%nat)
    by (destruct (Exporter.text_object st); [now elim Hne | simpl; lia]).
  apply (Nat.div_unique _ 60 _ (length (Exporter.text_object st) - 1)); lia.
Qed.

(** X7.  No line drawn into the PDF is longer than 93 characters: 90
    of the content and the 3 of the marker. *)
Theorem pdf_line_length (content : string) :
  Forall (fun p => Forall (fun d => (String.length (snd d) <= 93)%nat) p)
         (Exporter.render_pdf content).
Proof.
  apply Forall_forall. intros p Hp. apply Forall_forall. intros d Hd.
  assert (Hin : In (snd d) (map snd (concat (Exporter.render_pdf content)))).
  { apply in_map. apply in_concat. exists p. auto. }
  unfold Exporter.render_pdf in Hin.
  change (concat _) with
    (Exporter.drawn (fold_left Exporter.layout_line (Py.split_lines content)
                       Exporter.begin_layout)) in Hin.
  rewrite drawn_fold in Hin. cbn [Exporter.drawn app] in Hin.
  apply in_map_iff in Hin. destruct Hin as (line & <- & _).
  apply emit_line_length.
Qed.

Lemma emit_short_lines (ls : list string) :
  Forall (fun line => (String.length line <= 90)%nat) ls ->
  map Exporter.emit_line ls = ls.
Proof.
  induction 1 as [|l ls Hl _ IH]; cbn [map]; [reflexivity|].
  f_equal; [now apply emit_line_short | exact IH].
Qed.

(** X8.  For content whose lines all have at most 90 characters the
    PDF loses nothing: the drawn lines, joined by newlines, are the
    content. *)
Theorem pdf_short_lines_lossless (content : string) :
  Forall (fun line => (String.length line <= 90)%nat)
         (Py.split_lines content) ->
  String.concat Upload.nl (map snd (concat (Exporter.render_pdf content)))
  = content.
Proof.
  intros Hshort.
  assert (H : map snd (concat (Exporter.render_pdf content))
              = map Exporter.emit_line (Py.split_lines content))
    by exact (drawn_fold (Py.split_lines content) Exporter.begin_layout).
  rewrite H, (emit_short_lines _ Hshort). apply join_split_lines.
Qed.

Lemma pdf_short_lines_lossless_witness :
  String.concat Upload.nl
    (map snd (concat (Exporter.render_pdf ("# Title" ++ Upload.nl ++ "row"))))
  = "# Title" ++ Upload.nl ++ "row".
Proof.
  apply (pdf_short_lines_lossless ("# Title" ++ Upload.nl ++ "row")).
  vm_compute. repeat constructor.
Defined.

(** Building a response never raises the handler's own exception. *)
Lemma make_response_answers content media header status detail :
  Exporter.make_response content media header
  <> Exporter.HTTPException status detail.
Proof.
  unfold Exporter.make_response.
  destruct (Py.encode_latin1 header); discriminate.
Qed.

(** X9.  The export fails, with status 400 and detail
    "Unsupported format", exactly when the lowercased format is none of
    "md", "txt" and "pdf". *)
Theorem download_unsupported_format (request : Exporter.DownloadRequest) :
  let fmt := Py.lower (Exporter.format request) in
  Exporter.download_result request
  = Exporter.HTTPException 400 "Unsupported format"
  <-> fmt <> "md" /\ fmt <> "txt" /\ fmt <> "pdf".
Proof.
  intros fmt. unfold Exporter.download_result. fold fmt.
  destruct (String.eqb_spec fmt "md") as [E1|N1];
    [split; [intros H; now apply make_response_answers in H
            | intros (H & _); now elim H]|].
  destruct (String.eqb_spec fmt "txt") as [E2|N2];
    [split; [intros H; now apply make_response_answers in H
            | intros (_ & H & _); now elim H]|].
  destruct (String.eqb_spec fmt "pdf") as [E3|N3];
    [split; [intros H; now apply make_response_answers in H
            | intros (_ & _ & H); now elim H]|].
  split; auto.
Qed.

Lemma download_unsupported_format_witness :
  Exporter.download_result
    (Exporter.MkDownloadRequest "text" "DOCX" (Py.widen "result"))
  = Exporter.HTTPException 400 "Unsupported format".
Proof.
  apply (download_unsupported_format
           (Exporter.MkDownloadRequest "text" "DOCX" (Py.widen "result"))).
  repeat split; vm_compute; discriminate.
Defined.

(** X10.  The format is matched without regard to case: a request and
    the same request with its format lowercased get the same answer. *)
Theorem download_format_case_insensitive (x fmt : string) (f : Py.ustr) :
  Exporter.download_result (Exporter.MkDownloadRequest x fmt f)
  = Exporter.download_result (Exporter.MkDownloadRequest x (Py.lower fmt) f).
Proof.
  unfold Exporter.download_result. cbn [Exporter.format].
  now rewrite lower_idempotent.
Qed.

(** ** Further properties of the extractors *)

Lemma pdf_pages_failing (texts : list string) e rest : forall text,
  Extractor.pdf_pages (map Ok texts ++ Raise e :: rest)%list text = Raise e.
Proof.
  induction texts as [|t ts IH]; intros text; simpl; [reflexivity|].
  apply IH.
Qed.

Lemma docx_paragraphs_all_read (texts : list string) :
  Extractor.docx_paragraphs (map Ok texts) = Ok texts.
Proof.
  induction texts as [|t ts IH]; simpl; [reflexivity|]. now rewrite IH.
Qed.

Lemma pptx_shapes_all_read (slide : list (option string)) : forall text,
  Extractor.pptx_shapes (map (option_map Ok) slide) text
  = Ok (text ++ String.concat ""
                  (map (fun t => t ++ Upload.nl) (Extractor.shape_texts slide))).
Proof.
  induction slide as [|[t|] slide IH]; intros text.
  - simpl. now rewrite append_nil_r.
  - cbn [map option_map Extractor.pptx_shapes bind]. rewrite IH. f_equal.
    unfold Extractor.shape_texts. cbn [flat_map app map].
    rewrite concat_empty_cons, append_assoc. reflexivity.
  - cbn [map option_map Extractor.pptx_shapes]. rewrite IH. reflexivity.
Qed.

Lemma pptx_slides_all_read (slides : list (list (option string))) :
  forall text,
  Extractor.pptx_slides (map (map (option_map Ok)) slides) text
  = Ok (text ++ String.concat ""
                  (map (fun t => t ++ Upload.nl)
                       (flat_map Extractor.shape_texts slides))).
Proof.
  induction slides as [|slide slides IH]; intros text.
  - simpl. now rewrite append_nil_r.
  - cbn [map Extractor.pptx_slides flat_map].
    rewrite pptx_shapes_all_read. cbn [bind]. rewrite IH. f_equal.
    now rewrite map_app, concat_empty_app, append_assoc.
Qed.

(** X11.  When a page of a PDF cannot be read, the text of the pages
    before it is dropped: the result is only
    "Error extracting PDF: <message>" for the first such page. *)
Theorem pdf_failing_page_discards
    (P : Extractor.parsers) (path : string) (texts : list string)
    (e : exn) (rest : list (result string)) :
  Extractor.PdfReader P path = Ok (map Ok texts ++ Raise e :: rest)%list ->
  Extractor.extract_text_from_pdf P path
  = "Error extracting PDF: " ++ str_exn e.
Proof.
  intros H. unfold Extractor.extract_text_from_pdf, Extractor.read_pdf.
  rewrite H. cbn [bind]. now rewrite pdf_pages_failing.
Qed.

Lemma pdf_failing_page_discards_witness :
  Extractor.extract_text_from_pdf Scenario.half_read "scan.pdf"
  = "Error extracting PDF: EOF marker not found".
Proof.
  apply (pdf_failing_page_discards Scenario.half_read "scan.pdf"
           ["A"] Scenario.corrupt [Ok "C"]).
  reflexivity.
Defined.

(** X12.  A PDF whose pages are all read gives the page texts in order,
    each followed by a newline; a PDF without pages gives the empty
    string. *)
Theorem pdf_text_of_pages
    (P : Extractor.parsers) (path : string) (texts : list string) :
  Extractor.PdfReader P path = Ok (map Ok texts) ->
  Extractor.extract_text_from_pdf P path
  = String.concat "" (map (fun t => t ++ Upload.nl) texts).
Proof.
  intros H. unfold Extractor.extract_text_from_pdf, Extractor.read_pdf.
  rewrite H. cbn [bind]. rewrite pdf_pages_all_read. reflexivity.
Qed.

Lemma pdf_text_of_pages_witness :
  Extractor.extract_text_from_pdf Scenario.documents "temp_uploads/abc.pdf"
  = "A" ++ Upload.nl ++ "B" ++ Upload.nl ++ "C" ++ Upload.nl.
Proof.
  apply (pdf_text_of_pages Scenario.documents "temp_uploads/abc.pdf"
           ["A"; "B"; "C"]).
  reflexivity.
Defined.

(** X13.  A DOCX whose paragraphs are all read gives their texts joined
    by newlines, with no newline after the last. *)
Theorem docx_text_of_paragraphs
    (P : Extractor.parsers) (path : string) (texts : list string) :
  Extractor.Document P path = Ok (map Ok texts) ->
  Extractor.extract_text_from_docx P path = String.concat Upload.nl texts.
Proof.
  intros H. unfold Extractor.extract_text_from_docx, Extractor.read_docx.
  rewrite H. cbn [bind]. rewrite docx_paragraphs_all_read. reflexivity.
Qed.

Lemma docx_text_of_paragraphs_witness :
  Extractor.extract_text_from_docx Scenario.documents "temp_uploads/a.docx"
  = "Title" ++ Upload.nl ++ "Body".
Proof.
  apply (docx_text_of_paragraphs Scenario.documents "temp_uploads/a.docx"
           ["Title"; "Body"]).
  reflexivity.
Defined.

(** X14.  A PPTX whose shapes are all read gives, slide by slide and
    shape by shape, the text of every shape that has one, each followed
    by a newline; shapes without text contribute nothing. *)
Theorem pptx_text_of_shapes
    (P : Extractor.parsers) (path : string)
    (slides : list (list (option string))) :
  Extractor.Presentation P path = Ok (map (map (option_map Ok)) slides) ->
  Extractor.extract_text_from_pptx P path
  = String.concat ""
      (map (fun t => t ++ Upload.nl) (flat_map Extractor.shape_texts slides)).
Proof.
  intros H. unfold Extractor.extract_text_from_pptx, Extractor.read_pptx.
  rewrite H. cbn [bind]. rewrite pptx_slides_all_read. reflexivity.
Qed.

Lemma pptx_text_of_shapes_witness :
  Extractor.extract_text_from_pptx Scenario.documents "temp_uploads/a.pptx"
  = "Slide 1" ++ Upload.nl ++ "Slide 2" ++ Upload.nl.
Proof.
  apply (pptx_text_of_shapes Scenario.documents "temp_uploads/a.pptx"
           [[Some "Slide 1"; None]; [Some "Slide 2"]]).
  reflexivity.
Defined.

(** ** Further properties of the upload handler *)

(** X15.  The preview of a result is the first 500 characters of the
    extracted text followed by "...", whether or not anything was cut:
    it has [min 500 n + 3] characters for a text of [n], and a text of
    at most 500 characters is shown whole before the marker. *)
Theorem preview_is_marked
    (P : Extractor.parsers) (get_prompt : string -> string)
    (E : Invoker.env) (name : string) :
  let text := Extractor.extract_text P (Upload.temp_path name) in
  let preview :=
    Upload.extracted_text_preview (Upload.process_file P get_prompt E name) in
  String.length preview = (Nat.min 500 (String.length text) + 3)%nat
  /\ ((String.length text <= 500)%nat -> preview = text ++ "...").
Proof.
  intros text preview. unfold preview, Upload.process_file.
  cbn [Upload.extracted_text_preview]. fold text. split.
  - rewrite length_append, length_take. reflexivity.
  - intros H. now rewrite (take_all 500 text H).
Qed.

Lemma preview_is_marked_witness :
  Upload.extracted_text_preview
    (Upload.process_file Scenario.documents Scenario.get_prompt
       Scenario.without_key "abc.pdf")
  = Extractor.extract_text Scenario.documents (Upload.temp_path "abc.pdf")
    ++ "...".
Proof.
  apply (preview_is_marked Scenario.documents Scenario.get_prompt
           Scenario.without_key "abc.pdf").
  vm_compute. lia.
Defined.

(** X16.  With a credential, the library and a client, when every
    request is answered with a not-found or a bad-request error, the
    record of an uploaded file carries the exhaustion message of the
    invoker as its response, not the simulated one. *)
Theorem upload_reports_exhaustion
    (P : Extractor.parsers) (get_prompt : string -> string)
    (E : Invoker.env) (name : string) :
  Invoker.no_key (Invoker.api_key E) = false ->
  Invoker.anthropic_installed E = true ->
  Invoker.make_client E = Ok tt ->
  (forall log rq,
     exists e, Invoker.create E log rq = Raise e /\ exn_cls e <> OtherError) ->
  exists e,
    Upload.ai_response (Upload.process_file P get_prompt E name)
    = "Error: No working Claude model found. Last error: " ++ str_exn e.
Proof.
  intros Hkey Hlib Hcl Hsoft.
  unfold Upload.process_file. cbn [Upload.ai_response].
  set (prompt := get_prompt _).
  unfold Invoker.call_claude_api. rewrite Hkey, Hlib, Hcl. cbn [negb].
  destruct (soft_failures_exhaust (Invoker.create E) prompt Hsoft
              Invoker.models_to_try None [])
    as (le & log' & Hr & e & before & rq & -> & _).
  rewrite Hr. exists e. reflexivity.
Qed.

Lemma upload_reports_exhaustion_witness :
  exists e,
    Upload.ai_response
      (Upload.process_file Scenario.documents Scenario.get_prompt
         (Scenario.with_key Scenario.nothing_found) "abc.pdf")
    = "Error: No working Claude model found. Last error: " ++ str_exn e.
Proof.
  apply (upload_reports_exhaustion Scenario.documents Scenario.get_prompt
           (Scenario.with_key Scenario.nothing_found) "abc.pdf").
  - reflexivity.
  - reflexivity.
  - reflexivity.
  - intros log rq. eexists. split; [reflexivity | discriminate].
Defined.

(** ** The extension *)

Lemma drop_next (n : nat) : forall s c t,
  Py.drop n s = String c t -> Py.drop (S n) s = t.
Proof.
  induction n as [|n IH]; intros [|a s] c t H; simpl in *;
    try discriminate.
  - now injection H as _ ->.
  - destruct s as [|b s]; [destruct n; discriminate|].
    exact (IH (String b s) c t H).
Qed.

(** Past its last index a character does not occur. *)
Lemma rfind_after c s : forall n,
  Py.rfind c s < Z.of_nat n -> Py.rfind c (Py.drop n s) = -1.
Proof.
  induction s as [|a s IH]; intros n H.
  - now destruct n.
  - destruct n as [|n].
    + pose proof (rfind_lower_bound c (String a s)). simpl Py.drop. lia.
    + cbn [Py.drop]. apply IH. cbn [Py.rfind] in H.
      pose proof (rfind_lower_bound c s).
      destruct (0 <=? Py.rfind c s) eqn:E; [lia|].
      apply Z.leb_gt in E. lia.
Qed.

Lemma eqb_lower_separator (a : ascii) :
  Ascii.eqb (Py.lower_ascii a) "." = Ascii.eqb a "."
  /\ Ascii.eqb (Py.lower_ascii a) "/" = Ascii.eqb a "/".
Proof.
  destruct a as [[] [] [] [] [] [] [] []]; vm_compute; split; reflexivity.
Qed.

Lemma rfind_lower (s : string) :
  Py.rfind "." (Py.lower s) = Py.rfind "." s
  /\ Py.rfind "/" (Py.lower s) = Py.rfind "/" s.
Proof.
  induction s as [|a s [IH1 IH2]]; [split; reflexivity|].
  cbn [Py.lower Py.rfind]. rewrite IH1, IH2.
  destruct (eqb_lower_separator a) as [-> ->]. split; reflexivity.
Qed.

(** X17.  The extension [extract_text] dispatches on is empty, or a dot
    followed by characters among which there is neither a dot nor a
    slash: it is taken from the last component of the path only. *)
Theorem extension_shape (path : string) :
  Extractor.extension path = ""
  \/ exists t,
       Extractor.extension path = String "." t
       /\ Py.rfind "." t = -1 /\ Py.rfind "/" t = -1.
Proof.
  unfold Extractor.extension, Extractor.splitext.
  destruct (Py.rfind "/" path <? Py.rfind "." path) eqn:E;
    [|now left].
  destruct (Extractor.name_before_dot _ _ _); [|now left].
  right. cbn [andb snd]. apply Z.ltb_lt in E.
  pose proof (rfind_lower_bound "/" path) as Hsep.
  destruct (rfind_drop "." path) as [t Ht]; [lia|].
  rewrite Ht. exists (Py.lower t). split; [reflexivity|].
  apply drop_next in Ht. subst t.
  destruct (rfind_lower (Py.drop (S (Z.to_nat (Py.rfind "." path))) path))
    as [-> ->].
  split; apply rfind_after; lia.
Qed.
